(** * NatSchix: the test-session state machine of [src/contexts/TestContext.tsx]

    A shallow embedding of the React test context: the session record, the
    operations the provider exposes ([startTest], [endTest], [selectAnswer],
    [markForReview], [navigateToQuestion], [nextQuestion], [previousQuestion],
    [submitTest]), the per-subject scorer inside [submitTest] and the question
    loader behind [startTest].

    Modelling choices.
    - [setTestState(prev => ...)] is a pure function on [TestState].
    - The two [async] functions run in a small state-and-exception monad [M]
      over a [World]: the session plus the batches handed to
      [supabase.from('test_results').insert].
    - What the environment decides is an argument: the reply of the remote
      read, the reply of the batch insert, the clock ([new Date()]) and the
      outcome of [sort(() => Math.random() - 0.5)].
    - Indices, option numbers and counters are JavaScript numbers holding
      integers: [Z].  The one quotient, in the percentage, is computed on
      exact rationals; module [Binary64] evaluates the same expression on
      IEEE doubles, and the last section bounds the totals on which the
      two agree.
    - [subjectScores] is an object literal used as a dictionary: its own
      properties are a [gmap], and a read also finds the members inherited
      from [Object.prototype].
    - The two authentication providers of the repository (the one backed by
      the identity service and the earlier mock) are embedded the same way,
      over a state that includes the two browser storages.
    - The source text keeps, besides the Supabase-backed [submitTest] of lines
      192-248, the earlier mock version ([submitTestOld], and a second stale
      copy under the old name at lines 333-353).  [submitTest] below is the
      Supabase-backed one. *)

From stdpp Require Import base gmap list strings pretty.
From Stdlib Require Import ZArith QArith Qround Permutation Lia.
From Stdlib Require Import Floats.PrimFloat Floats.SpecFloat Floats.FloatOps.
From Stdlib Require Import Numbers.Cyclic.Int63.Uint63.

Local Open Scope string_scope.
Local Open Scope Z_scope.

(** ** Data model (lines 5-28) *)

Inductive Difficulty : Type := easy | medium | hard.

Module Question.
Record t : Type := mk {
  id : string;
  subject : string;
  question : string;
  options : list string;
  correctAnswer : Z;
  difficulty : Difficulty
}.
End Question.

Record TestAnswer : Type := mkTestAnswer {
  questionId : string;
  selectedAnswer : option Z;        (* number | null *)
  timeSpent : Z;
  marked : bool
}.

Record TestState : Type := mkTestState {
  questions : list Question.t;
  answers : list TestAnswer;
  currentQuestion : Z;
  timeRemaining : Z;
  isActive : bool;
  startTime : option Z              (* Date | null, as epoch milliseconds *)
}.

(** The identity the auth context yields (AuthContext.tsx, [interface User]). *)
Module User.
Record t : Type := mk {
  id : string;
  email : string;
  name : string;
  picture : option string;
  isRegistered : option bool
}.
End User.

(** A row of the remote [questions] table, as [select('*')] returns it. *)
Module QuestionRow.
Record t : Type := mk {
  id : string;                    (* UUID *)
  subject : string;
  question : string;
  option_a : string;
  option_b : string;
  option_c : string;
  option_d : string;
  correct_answer : Z;             (* 1-based *)
  difficulty : Difficulty
}.
End QuestionRow.

(** One object of the [testResults] array (lines 222-232).  [questions] and
    [answers] hold the arrays given to [JSON.stringify]; [test_time] holds
    the instant given to [toISOString]. *)
Module TestResult.
Record t : Type := mk {
  email : string;
  test_time : option Z;
  subject : string;
  questions : list Question.t;
  answers : list TestAnswer;
  score : Z;
  duration_seconds : Z
}.
End TestResult.

(** ** The built-in question set (lines 57-109) *)

Definition mockQuestions : list Question.t :=
  [ Question.mk "math_1" "Math" "What is 15 × 8?"
      ["120"; "110"; "130"; "125"] 0 easy;
    Question.mk "math_2" "Math" "Solve for x: 2x + 5 = 17"
      ["6"; "5"; "7"; "8"] 0 medium;
    Question.mk "science_1" "Science" "What is the chemical symbol for gold?"
      ["Go"; "Gd"; "Au"; "Ag"] 2 easy;
    Question.mk "science_2" "Science" "Which planet is known as the Red Planet?"
      ["Venus"; "Mars"; "Jupiter"; "Saturn"] 1 easy;
    Question.mk "reasoning_1" "Reasoning"
      "If all roses are flowers and some flowers are red, then:"
      ["All roses are red"; "Some roses are red"; "No roses are red";
       "Cannot be determined"] 3 medium;
    Question.mk "reasoning_2" "Reasoning"
      "What comes next in the sequence: 2, 6, 12, 20, ?"
      ["28"; "30"; "32"; "34"] 1 medium ].

(** The state [useState] starts from (lines 113-120). *)
Definition initialState : TestState :=
  {| questions := []; answers := []; currentQuestion := 0;
     timeRemaining := 3600; isActive := false; startTime := None |}.

(** ** Synchronous operations (lines 287-331)

    Each is the updater passed to [setTestState]; the spread [...prev] is
    written out field by field. *)

Definition endTest (prev : TestState) : TestState :=
  {| questions := questions prev; answers := answers prev;
     currentQuestion := currentQuestion prev;
     timeRemaining := timeRemaining prev;
     isActive := false; startTime := startTime prev |}.

Definition with_answers (prev : TestState) (l : list TestAnswer) : TestState :=
  {| questions := questions prev; answers := l;
     currentQuestion := currentQuestion prev;
     timeRemaining := timeRemaining prev;
     isActive := isActive prev; startTime := startTime prev |}.

Definition with_currentQuestion (prev : TestState) (c : Z) : TestState :=
  {| questions := questions prev; answers := answers prev;
     currentQuestion := c;
     timeRemaining := timeRemaining prev;
     isActive := isActive prev; startTime := startTime prev |}.

Definition selectAnswer (qid : string) (answer : Z) (prev : TestState)
  : TestState :=
  with_answers prev
    (map (fun a =>
            if String.eqb (questionId a) qid
            then {| questionId := questionId a; selectedAnswer := Some answer;
                    timeSpent := timeSpent a; marked := marked a |}
            else a)
         (answers prev)).

Definition markForReview (qid : string) (prev : TestState) : TestState :=
  with_answers prev
    (map (fun a =>
            if String.eqb (questionId a) qid
            then {| questionId := questionId a;
                    selectedAnswer := selectedAnswer a;
                    timeSpent := timeSpent a; marked := negb (marked a) |}
            else a)
         (answers prev)).

Definition navigateToQuestion (index : Z) (prev : TestState) : TestState :=
  with_currentQuestion prev index.

Definition nextQuestion (prev : TestState) : TestState :=
  with_currentQuestion prev
    (Z.min (currentQuestion prev + 1) (Z.of_nat (length (questions prev)) - 1)).

Definition previousQuestion (prev : TestState) : TestState :=
  with_currentQuestion prev (Z.max (currentQuestion prev - 1) 0).

(** Cursor moves, for sequences of [nextQuestion] / [previousQuestion]. *)
Inductive Move : Type := Next | Previous.

Definition move (m : Move) : TestState -> TestState :=
  match m with Next => nextQuestion | Previous => previousQuestion end.

Definition moves (ms : list Move) (s : TestState) : TestState :=
  foldl (fun st m => move m st) s ms.

(** The session invariant of the data model: equal lengths and the same
    question id at every position. *)
Definition aligned (s : TestState) : Prop :=
  length (answers s) = length (questions s) /\
  forall (i : nat) (q : Question.t) (a : TestAnswer),
    questions s !! i = Some q -> answers s !! i = Some a ->
    questionId a = Question.id q.

Definition in_range (s : TestState) : Prop :=
  0 <= currentQuestion s <= Z.of_nat (length (questions s)) - 1.

(** ** The scorer inside [submitTest] (lines 199-214) *)

Record SubjectScore : Type := mkSubjectScore { correct : Z; total : Z }.

(** [answer.selectedAnswer === question.correctAnswer] on [number | null]
    against [number]: [null] is strictly equal to no number. *)
Definition strict_eq (selected : option Z) (expected : Z) : bool :=
  match selected with
  | Some n => n =? expected
  | None => false
  end.

(** [subjectScores] is created by the literal [{}], whose prototype is
    [Object.prototype].  The read [subjectScores[subject]] walks the
    prototype chain, so for these names it yields an inherited member (a
    function, or the prototype object itself for [__proto__]), all truthy,
    although [subjectScores] owns no such property. *)
Definition object_prototype_names : list string :=
  [ "constructor"; "hasOwnProperty"; "isPrototypeOf"; "propertyIsEnumerable";
    "toLocaleString"; "toString"; "valueOf"; "__proto__";
    "__defineGetter__"; "__defineSetter__";
    "__lookupGetter__"; "__lookupSetter__" ].

Definition inherited (key : string) : bool :=
  existsb (String.eqb key) object_prototype_names.

(** The callback of [testState.answers.forEach((answer, index) => ...)].
    For an inherited name the guard [!subjectScores[subject]] is false and
    both increments land on the inherited member, not on [subjectScores]:
    its own properties stay as they were. *)
Definition tally (qs : list Question.t) (subjectScores : gmap string SubjectScore)
    (answer : TestAnswer) (index : nat) : gmap string SubjectScore :=
  match qs !! index with
  | None => subjectScores                                (* if (!question) return *)
  | Some question =>
      let subject := Question.subject question in
      if inherited subject then subjectScores
      else
        let created :=
          match subjectScores !! subject with
          | Some _ => subjectScores
          | None => <[subject := {| correct := 0; total := 0 |}]> subjectScores
          end in
        let counted :=
          alter (fun sc => {| correct := correct sc; total := total sc + 1 |})
                subject created in
        if strict_eq (selectedAnswer answer) (Question.correctAnswer question)
        then alter (fun sc => {| correct := correct sc + 1; total := total sc |})
                   subject counted
        else counted
  end.

(** [Array.prototype.forEach] with the index passed to the callback,
    threading the object the callback mutates. *)
Fixpoint forEach_from {A B : Type} (f : B -> A -> nat -> B) (index : nat)
    (l : list A) (acc : B) : B :=
  match l with
  | [] => acc
  | x :: l' => forEach_from f (S index) l' (f acc x index)
  end.

Definition subjectScores (s : TestState) : gmap string SubjectScore :=
  forEach_from (tally (questions s)) 0%nat (answers s) ∅.

(** [Math.round]: the nearest integer, a tie going towards plus infinity. *)
Definition Math_round (x : Q) : Z := Qfloor (x + (1 # 2))%Q.

(** [scores.total > 0 ? Math.round((scores.correct / scores.total) * 100) : 0] *)
Definition percentage (scores : SubjectScore) : Z :=
  if 0 <? total scores
  then Math_round ((inject_Z (correct scores) / inject_Z (total scores))
                   * inject_Z 100)%Q
  else 0.

(** [Array.prototype.filter] with a predicate that reads the index. *)
Fixpoint filter_index_from {A : Type} (p : A -> nat -> bool) (index : nat)
    (l : list A) : list A :=
  match l with
  | [] => []
  | x :: l' =>
      if p x index then x :: filter_index_from p (S index) l'
      else filter_index_from p (S index) l'
  end.

(** [testState.questions[index]?.subject === subject] *)
Definition subject_at (qs : list Question.t) (subject : string) (index : nat)
  : bool :=
  match qs !! index with
  | Some q => String.eqb (Question.subject q) subject
  | None => false
  end.

(** Lines 216-219. *)
Definition duration (now : Z) (s : TestState) : Z :=
  match startTime s with
  | Some t0 => (now - t0) / 1000
  | None => 0
  end.

(** Lines 222-232: one record per own property of [subjectScores].  The
    records are read as a collection: the order of [Object.entries] is not
    part of the model. *)
Definition testResults (user : User.t) (now : Z) (s : TestState)
  : list TestResult.t :=
  map (fun entry : string * SubjectScore =>
         let (subject, scores) := entry in
         {| TestResult.email := User.email user;
            TestResult.test_time := startTime s;
            TestResult.subject := subject;
            TestResult.questions :=
              List.filter (fun q => String.eqb (Question.subject q) subject)
                          (questions s);
            TestResult.answers :=
              filter_index_from
                (fun _ index => subject_at (questions s) subject index)
                0%nat (answers s);
            TestResult.score := percentage scores;
            TestResult.duration_seconds := duration now s |})
      (map_to_list (subjectScores s)).

(** ** Effects: the session, the backend and exceptions *)

Inductive Exn : Type :=
  | Error (message : string)           (* new Error(message) *)
  | BackendError (message : string).   (* an error object of the client *)

(** What the awaited remote read does: reject, or resolve to
    [{ data, error }]. *)
Inductive SelectReply : Type :=
  | SelectRejects (e : Exn)
  | SelectResolves (data : option (list QuestionRow.t)) (error : option Exn).

(** What the awaited batch insert does: reject, or resolve to [{ error }]. *)
Inductive InsertReply : Type :=
  | InsertRejects (e : Exn)
  | InsertResolves (error : option Exn).

Record World : Type := mkWorld {
  testState : TestState;
  inserts : list (list TestResult.t)   (* batches handed to insert, newest first *)
}.

Definition M (A : Type) : Type := World -> (Exn + A) * World.

Definition ret {A : Type} (x : A) : M A := fun w => (inr x, w).

Definition bind {A B : Type} (m : M A) (k : A -> M B) : M B :=
  fun w =>
    match m w with
    | (inl e, w') => (inl e, w')
    | (inr x, w') => k x w'
    end.

Definition throw {A : Type} (e : Exn) : M A := fun w => (inl e, w).

Definition try_catch {A : Type} (body : M A) (handler : Exn -> M A) : M A :=
  fun w =>
    match body w with
    | (inl e, w') => handler e w'
    | (inr x, w') => (inr x, w')
    end.

Definition get_testState : M TestState := fun w => (inr (testState w), w).

Definition setTestState (update : TestState -> TestState) : M unit :=
  fun w => (inr tt, {| testState := update (testState w); inserts := inserts w |}).

#[export] Instance M_ret : MRet M := @ret.
#[export] Instance M_bind : MBind M := fun A B k m => bind m k.

(** [await supabase.from('questions').select('*').limit(60)] *)
Definition supabase_select (reply : SelectReply)
  : M (option (list QuestionRow.t) * option Exn) :=
  match reply with
  | SelectRejects e => throw e
  | SelectResolves data error => ret (data, error)
  end.

(** [await supabase.from('test_results').insert(testResults)] *)
Definition supabase_insert (reply : InsertReply) (rows : list TestResult.t)
  : M (option Exn) :=
  fun w =>
    let w' := {| testState := testState w; inserts := rows :: inserts w |} in
    match reply with
    | InsertRejects e => (inl e, w')
    | InsertResolves error => (inr error, w')
    end.

(** ** [submitTest] (lines 192-248) *)

Definition submitTest (user : option User.t) (reply : InsertReply) (now : Z)
  : M unit :=
  match user with
  | None => throw (Error "User not authenticated")
  | Some u =>
      try_catch
        (s ← get_testState;
         let rows := testResults u now s in
         error ← supabase_insert reply rows;
         match error with
         | Some e => throw e
         | None => setTestState endTest
         end)
        (fun error => throw error)
  end.

(** ** [startTest] and [loadQuestions] (lines 122-190) *)

(** The conversion of a remote row (lines 139-146); [toString] of a UUID
    string is the string. *)
Definition convert (q : QuestionRow.t) : Question.t :=
  {| Question.id := QuestionRow.id q;
     Question.subject := QuestionRow.subject q;
     Question.question := QuestionRow.question q;
     Question.options :=
       [QuestionRow.option_a q; QuestionRow.option_b q;
        QuestionRow.option_c q; QuestionRow.option_d q];
     Question.correctAnswer := QuestionRow.correct_answer q - 1;
     Question.difficulty := QuestionRow.difficulty q |}.

Definition initialAnswers (qs : list Question.t) : list TestAnswer :=
  map (fun q => {| questionId := Question.id q; selectedAnswer := None;
                   timeSpent := 0; marked := false |}) qs.

Definition fresh_session (qs : list Question.t) (now : Z) : TestState :=
  {| questions := qs; answers := initialAnswers qs; currentQuestion := 0;
     timeRemaining := 3600; isActive := true; startTime := Some now |}.

(** [!error && questions && questions.length > 0] *)
Definition usable (data : option (list QuestionRow.t)) (error : option Exn)
  : bool :=
  match error, data with
  | None, Some (_ :: _) => true
  | _, _ => false
  end.

(** [sort_random] stands for [[...l].sort(() => Math.random() - 0.5)]: the
    environment picks the resulting arrangement. *)
Definition loadQuestions (sort_random : list Question.t -> list Question.t)
    (reply : SelectReply) (now : Z) : M unit :=
  try_catch
    (response ← supabase_select reply;
     let (data, error) := response : option (list QuestionRow.t) * option Exn in
     let selectedQuestions :=
       if usable data error then map convert (default [] data)
       else mockQuestions in
     let shuffledQuestions := sort_random selectedQuestions in
     let finalQuestions :=
       take (Nat.min 6 (length shuffledQuestions)) shuffledQuestions in
     setTestState (fun _ => fresh_session finalQuestions now))
    (fun _ =>
       let shuffledQuestions := sort_random mockQuestions in
       let selectedQuestions := take 6 shuffledQuestions in
       setTestState (fun _ => fresh_session selectedQuestions now)).

Definition startTest := loadQuestions.

(** ** Sessions as runs of the provider's operations *)

Inductive Call : Type :=
  | CallStartTest (sort_random : list Question.t -> list Question.t)
                  (reply : SelectReply) (now : Z)
  | CallEndTest
  | CallSelectAnswer (qid : string) (answer : Z)
  | CallMarkForReview (qid : string)
  | CallNavigateToQuestion (index : Z)
  | CallNextQuestion
  | CallPreviousQuestion
  | CallSubmitTest (user : option User.t) (reply : InsertReply) (now : Z).

Definition perform (c : Call) : M unit :=
  match c with
  | CallStartTest sort_random reply now => startTest sort_random reply now
  | CallEndTest => setTestState endTest
  | CallSelectAnswer qid answer => setTestState (selectAnswer qid answer)
  | CallMarkForReview qid => setTestState (markForReview qid)
  | CallNavigateToQuestion index => setTestState (navigateToQuestion index)
  | CallNextQuestion => setTestState nextQuestion
  | CallPreviousQuestion => setTestState previousQuestion
  | CallSubmitTest user reply now => submitTest user reply now
  end.

Definition initialWorld : World :=
  {| testState := initialState; inserts := [] |}.

(** The world after a sequence of calls; a call that throws leaves the world
    it had reached. *)
Definition run (cs : list Call) (w : World) : World :=
  foldl (fun w c => snd (perform c w)) w cs.

(** The remote read fails for the loader: it throws, it returns an error,
    or it returns an empty set. *)
Inductive remote_failed : SelectReply -> Prop :=
  | remote_throws (e : Exn) : remote_failed (SelectRejects e)
  | remote_error (data : option (list QuestionRow.t)) (e : Exn) :
      remote_failed (SelectResolves data (Some e))
  | remote_empty (error : option Exn) :
      remote_failed (SelectResolves (Some []) error).

(** The failure of the batch write, if it fails: a rejection, or the
    [error] of the resolved reply. *)
Definition insert_failure (reply : InsertReply) : option Exn :=
  match reply with
  | InsertRejects e => Some e
  | InsertResolves error => error
  end.

(** ** The percentage on IEEE doubles *)

Module Binary64.

(** The double holding an integer; exact for [0 <= z < 2^53]. *)
Definition of_Z (z : Z) : float := PrimFloat.of_uint63 (Uint63.of_Z z).

(** [Math.round] of a double, by its exact value [m * 2^e]; [None] for
    NaN and the infinities, which [Math.round] returns unchanged. *)
Definition Math_round (x : float) : option Z :=
  match Prim2SF x with
  | S754_zero _ => Some 0
  | S754_finite sign m e =>
      let num := if sign then - Z.pos m else Z.pos m in
      if 0 <=? e then Some (num * 2 ^ e)
      else Some ((2 * num + 2 ^ (- e)) / (2 * 2 ^ (- e)))
  | S754_infinity _ => None
  | S754_nan => None
  end.

Definition percentage (scores : SubjectScore) : option Z :=
  if 0 <? total scores
  then Math_round
         (PrimFloat.mul
            (PrimFloat.div (of_Z (correct scores)) (of_Z (total scores)))
            (of_Z 100))
  else Some 0.

End Binary64.

(** Whether the percentage on doubles is the percentage on rationals for
    every [0 <= c <= t] with [1 <= t <= n]. *)
Definition binary64_agrees_upto (n : nat) : bool :=
  forallb
    (fun t =>
       forallb
         (fun c =>
            let sc := {| correct := Z.of_nat c; total := Z.of_nat t |} in
            match Binary64.percentage sc with
            | Some p => p =? percentage sc
            | None => false
            end)
         (seq 0 (S t)))
    (seq 1 n).


(** ** What the scorer is expected to compute (spec section 4.3)

    Positions are pairs of a question and the answer at the same index. *)

Definition of_subject (subject : string) (qa : Question.t * TestAnswer) : bool :=
  String.eqb (Question.subject (fst qa)) subject.

Definition answered_correctly (qa : Question.t * TestAnswer) : bool :=
  strict_eq (selectedAnswer (snd qa)) (Question.correctAnswer (fst qa)).

(** [count(i : questions[i].subject == subject)] *)
Definition count_total (subject : string) (l : list (Question.t * TestAnswer))
  : Z :=
  Z.of_nat (length (List.filter (of_subject subject) l)).

(** [count(i : questions[i].subject == subject and
    answers[i].selectedAnswer == questions[i].correctAnswer)] *)
Definition count_correct (subject : string) (l : list (Question.t * TestAnswer))
  : Z :=
  Z.of_nat (length (List.filter
                      (fun qa => of_subject subject qa && answered_correctly qa)
                      l)).

(** [p] is [round(100 * c / t)]: the integer nearest to the quotient, the
    upper one at a tie. *)
Definition is_rounded_percentage (c t p : Z) : Prop :=
  2 * t * p - t <= 200 * c < 2 * t * p + t.

(** ** Sample sessions *)

Definition alice : User.t :=
  User.mk "7c0e" "alice@example.org" "Alice" None None.

(** Two Math questions, the first answered correctly (spec section 8). *)
Definition scorer_example : TestState :=
  {| questions :=
       [ Question.mk "q1" "Math" "What is 2 + 2?" ["4"; "3"; "5"; "6"] 0 easy;
         Question.mk "q2" "Math" "What is 3 + 4?" ["6"; "7"; "8"; "9"] 1 easy ];
     answers :=
       [ mkTestAnswer "q1" (Some 0) 0 false;
         mkTestAnswer "q2" (Some 0) 0 false ];
     currentQuestion := 0; timeRemaining := 3600; isActive := true;
     startTime := None |}.

(** The record [submitTest] builds for [alice] from that session. *)
Definition math_record : TestResult.t :=
  {| TestResult.email := "alice@example.org";
     TestResult.test_time := None;
     TestResult.subject := "Math";
     TestResult.questions := questions scorer_example;
     TestResult.answers := answers scorer_example;
     TestResult.score := 50;
     TestResult.duration_seconds := 0 |}.

(** A remote question bank with one question, filed under a subject named
    [constructor]. *)
Definition constructor_row : QuestionRow.t :=
  QuestionRow.mk "c1" "constructor" "Which method builds an object?"
                 "new" "make" "init" "alloc" 1 easy.

Definition constructor_calls : list Call :=
  [ CallStartTest (fun l => l) (SelectResolves (Some [constructor_row]) None) 0;
    CallSelectAnswer "c1" 0 ].

(** ** The earlier mock submission (lines 250-270, repeated at 333-353)

    It logs the results and ends the session; there is no user test and no
    backend call. *)
Definition submitTestOld : M unit :=
  try_catch (setTestState endTest) (fun error => throw error).

(** ** Sessions driven by the user *)

(** Answering every question of the session with its correct option, one
    [selectAnswer] call per question in order. *)
Definition answer_all_correctly (s : TestState) : TestState :=
  foldl (fun st q => selectAnswer (Question.id q) (Question.correctAnswer q) st)
        s (questions s).

(** The users on whose behalf a run handed a batch to the backend, newest
    first. *)
Fixpoint submitters (cs : list Call) (acc : list User.t) : list User.t :=
  match cs with
  | [] => acc
  | CallSubmitTest (Some u) _ _ :: cs' => submitters cs' (u :: acc)
  | _ :: cs' => submitters cs' acc
  end.

(** The [CHECK (correct_answer BETWEEN 1 AND 4)] of the [questions] table
    (migration, line 54). *)
Definition correct_answer_check (q : QuestionRow.t) : Prop :=
  1 <= QuestionRow.correct_answer q <= 4.

(** ** The authentication context backed by the identity provider

    The provider whose text follows the test context in
    [src/contexts/TestContext.tsx] (lines 372-526 of that file). *)

Module Auth.

(** [user_metadata] of the identity provider's user. *)
Record UserMetadata : Type := mkUserMetadata {
  full_name : option string;
  name : option string;
  avatar_url : option string;
  picture : option string
}.

Record SupabaseUser : Type := mkSupabaseUser {
  id : string;
  email : option string;
  user_metadata : option UserMetadata
}.

(** What the two storages hold: [JSON.stringify] of a user object, or a
    plain string. *)
Inductive Stored : Type :=
  | JSON_user (u : User.t)
  | Text (s : string).

(** The provider's state (lines 407-408) with the browser storages it
    writes. *)
Record World : Type := mkWorld {
  user : option User.t;
  isLoading : bool;
  localStorage : gmap string Stored;
  sessionStorage : gmap string Stored
}.

Definition initialWorld : World :=
  {| user := None; isLoading := true; localStorage := ∅; sessionStorage := ∅ |}.

(** Truthiness of an optional string: [undefined], [null] and the empty
    string are falsy. *)
Definition truthy (o : option string) : bool :=
  match o with
  | Some s => negb (String.eqb s "")
  | None => false
  end.

(** [a || b] *)
Definition js_or (a b : option string) : option string :=
  if truthy a then a else b.

(** [supabaseUser.user_metadata?.field] *)
Definition metadata (su : SupabaseUser) (field : UserMetadata -> option string)
  : option string :=
  match user_metadata su with
  | Some m => field m
  | None => None
  end.

(** An error object of the backend client, with its code. *)
Record PostgrestError : Type := mkPostgrestError {
  code : string;
  message : string
}.

(** The awaited [registrations] lookup ending in [.single()]: reject, or
    resolve to [{ data, error }]; [data] is the matching row's email. *)
Inductive RegistrationReply : Type :=
  | RegistrationRejects
  | RegistrationResolves (data : option string) (error : option PostgrestError).

(** The awaited [signInWithOAuth] and [signOut]: reject, or resolve to
    [{ error }]. *)
Inductive AuthReply : Type :=
  | AuthRejects (e : Exn)
  | AuthResolves (error : option Exn).

(** Lines 493-511. *)
Definition checkRegistrationStatus (email : string) (reply : RegistrationReply)
  : bool :=
  match reply with
  | RegistrationRejects => false                                  (* catch *)
  | RegistrationResolves data error =>
      match error with
      | Some e =>
          if negb (String.eqb (code e) "PGRST116") then false
          else bool_decide (is_Some data)
      | None => bool_decide (is_Some data)                        (* !!data *)
      end
  end.

(** Lines 434-449. *)
Definition handleUserSession (su : SupabaseUser) (reply : RegistrationReply)
    (w : World) : World :=
  let userEmail := default "" (js_or (email su) (Some "")) in
  let isRegistered := checkRegistrationStatus userEmail reply in
  let userData :=
    {| User.id := id su;
       User.email := userEmail;
       User.name :=
         default "User" (js_or (js_or (metadata su full_name) (metadata su name))
                               (Some "User"));
       User.picture := js_or (metadata su avatar_url) (metadata su picture);
       User.isRegistered := Some isRegistered |} in
  {| user := Some userData;
     isLoading := isLoading w;
     localStorage := <["user" := JSON_user userData]> (localStorage w);
     sessionStorage := sessionStorage w |}.

(** The callback given to [onAuthStateChange] (lines 422-429); [session] is
    [session?.user]. *)
Definition authStateChange (session : option SupabaseUser)
    (reply : RegistrationReply) (w : World) : World :=
  let w' :=
    match session with
    | Some su => handleUserSession su reply w
    | None => {| user := None; isLoading := isLoading w;
                 localStorage := localStorage w;
                 sessionStorage := sessionStorage w |}
    end in
  {| user := user w'; isLoading := false;
     localStorage := localStorage w'; sessionStorage := sessionStorage w' |}.

(** The continuation of [getSession()] on mount (lines 412-417). *)
Definition getSession (session : option SupabaseUser)
    (reply : RegistrationReply) (w : World) : World :=
  let w' :=
    match session with
    | Some su => handleUserSession su reply w
    | None => w
    end in
  {| user := user w'; isLoading := false;
     localStorage := localStorage w'; sessionStorage := sessionStorage w' |}.

(** Lines 451-468. *)
Definition login (reply : AuthReply) (w : World) : (Exn + unit) * World :=
  match reply with
  | AuthRejects e => (inl e, w)
  | AuthResolves (Some e) => (inl e, w)
  | AuthResolves None => (inr tt, w)
  end.

(** Lines 470-482: an [error] of [signOut] is logged and the local state is
    cleared all the same; a rejection goes to the [catch], which logs it. *)
Definition logout (reply : AuthReply) (w : World) : (Exn + unit) * World :=
  match reply with
  | AuthRejects _ => (inr tt, w)
  | AuthResolves _ =>
      (inr tt,
       {| user := None; isLoading := isLoading w;
          localStorage := delete "user" (localStorage w);
          sessionStorage := ∅ |})
  end.

(** Lines 484-491. *)
Definition setUserRegistered (w : World) : World :=
  match user w with
  | Some u =>
      let updatedUser :=
        {| User.id := User.id u; User.email := User.email u;
           User.name := User.name u; User.picture := User.picture u;
           User.isRegistered := Some true |} in
      {| user := Some updatedUser; isLoading := isLoading w;
         localStorage := <["user" := JSON_user updatedUser]> (localStorage w);
         sessionStorage := <["isRegistered" := Text "true"]> (sessionStorage w) |}
  | None => w
  end.

(** What happens to the provider, one event at a time. *)
Inductive Event : Type :=
  | EvGetSession (session : option SupabaseUser) (reply : RegistrationReply)
  | EvAuthStateChange (session : option SupabaseUser) (reply : RegistrationReply)
  | EvLogin (reply : AuthReply)
  | EvLogout (reply : AuthReply)
  | EvSetUserRegistered.

Definition handle (e : Event) (w : World) : World :=
  match e with
  | EvGetSession session reply => getSession session reply w
  | EvAuthStateChange session reply => authStateChange session reply w
  | EvLogin reply => snd (login reply w)
  | EvLogout reply => snd (logout reply w)
  | EvSetUserRegistered => setUserRegistered w
  end.

Definition run (es : list Event) (w : World) : World :=
  foldl (fun w e => handle e w) w es.

End Auth.

(** ** The mock authentication context ([src/contexts/AuthContext.tsx],
    lines 33-106)

    It shares the state and the storages of [Auth]. *)

Module MockAuth.

(** The effect run on mount (lines 37-44).  The [user] slot holds what
    [JSON.stringify] made of a user, and [JSON.parse] gives that user back;
    a slot holding any other text is outside the model ([None]). *)
Definition mount (w : Auth.World) : option Auth.World :=
  match Auth.localStorage w !! "user" with
  | Some (Auth.JSON_user u) =>
      Some {| Auth.user := Some u; Auth.isLoading := false;
              Auth.localStorage := Auth.localStorage w;
              Auth.sessionStorage := Auth.sessionStorage w |}
  | Some (Auth.Text _) => None
  | None =>
      Some {| Auth.user := Auth.user w; Auth.isLoading := false;
              Auth.localStorage := Auth.localStorage w;
              Auth.sessionStorage := Auth.sessionStorage w |}
  end.

(** Lines 79-91.  It has no [await], so it runs to its end when called;
    [user] is the value the calling render captured. *)
Definition checkRegistrationStatus (captured : option User.t) (email : string)
    (w : Auth.World) : Auth.World :=
  let isRegistered :=
    match Auth.sessionStorage w !! "isRegistered" with
    | Some (Auth.Text s) => String.eqb s "true"
    | _ => false
    end in
  match captured with
  | Some u =>
      if isRegistered then
        let updatedUser :=
          {| User.id := User.id u; User.email := User.email u;
             User.name := User.name u; User.picture := User.picture u;
             User.isRegistered := Some true |} in
        {| Auth.user := Some updatedUser; Auth.isLoading := Auth.isLoading w;
           Auth.localStorage :=
             <["user" := Auth.JSON_user updatedUser]> (Auth.localStorage w);
           Auth.sessionStorage := Auth.sessionStorage w |}
      else w
  | None => w
  end.

(** The user [login] makes up (lines 49-55); [now] is [Date.now()]. *)
Definition mockUser (now : Z) : User.t :=
  {| User.id := "google_" +:+ pretty now;
     User.email := "user@example.com";
     User.name := "Test User";
     User.picture := Some "https://via.placeholder.com/150";
     User.isRegistered := Some false |}.

(** Lines 46-62.  The registration check it ends with reads the [user] of
    the render [login] was created in: the one before this call. *)
Definition login (now : Z) (w : Auth.World) : Auth.World :=
  let w' :=
    {| Auth.user := Some (mockUser now); Auth.isLoading := Auth.isLoading w;
       Auth.localStorage :=
         <["user" := Auth.JSON_user (mockUser now)]> (Auth.localStorage w);
       Auth.sessionStorage := Auth.sessionStorage w |} in
  checkRegistrationStatus (Auth.user w) (User.email (mockUser now)) w'.

(** Lines 64-68. *)
Definition logout (w : Auth.World) : Auth.World :=
  {| Auth.user := None; Auth.isLoading := Auth.isLoading w;
     Auth.localStorage := delete "user" (Auth.localStorage w);
     Auth.sessionStorage := ∅ |}.

(** Lines 70-77: the same text as the other provider's. *)
Definition setUserRegistered : Auth.World -> Auth.World := Auth.setUserRegistered.

(** A page reload: the component state starts over, the storages stay. *)
Definition reload (w : Auth.World) : Auth.World :=
  {| Auth.user := None; Auth.isLoading := true;
     Auth.localStorage := Auth.localStorage w;
     Auth.sessionStorage := Auth.sessionStorage w |}.

Inductive Event : Type :=
  | EvLogin (now : Z)
  | EvLogout
  | EvSetUserRegistered.

Definition handle (e : Event) (w : Auth.World) : Auth.World :=
  match e with
  | EvLogin now => login now w
  | EvLogout => logout w
  | EvSetUserRegistered => setUserRegistered w
  end.

Definition run (es : list Event) (w : Auth.World) : Auth.World :=
  foldl (fun w e => handle e w) w es.

End MockAuth.

(** A signed-out browser whose session flag says registered. *)
Definition flagged_visitor : Auth.World :=
  {| Auth.user := None; Auth.isLoading := false;
     Auth.localStorage := ∅;
     Auth.sessionStorage := {[ "isRegistered" := Auth.Text "true" ]} |}.

(** * Properties *)

(** ** Alignment of answers and questions *)

Lemma aligned_iff_ids (s : TestState) :
  aligned s <-> map questionId (answers s) = map Question.id (questions s).
Proof.
  unfold aligned. destruct s as [qs ans c tr act st]; simpl.
  revert qs. induction ans as [|a ans IH]; intros [|q qs]; simpl.
  - split; [reflexivity | intros _; split; [reflexivity | intros i ? ? H; destruct i; discriminate H]].
  - split; [intros [H _]; discriminate H | intros H; discriminate H].
  - split; [intros [H _]; discriminate H | intros H; discriminate H].
  - split.
    + intros [Hlen Hid]. f_equal.
      * apply (Hid 0%nat q a); reflexivity.
      * apply IH. split; [congruence |].
        intros i q' a' Hq Ha. apply (Hid (S i) q' a'); assumption.
    + intros H. injection H as Hhd Htl. apply IH in Htl as [Hlen Hid].
      split; [simpl; congruence |].
      intros [|i] q' a' Hq Ha; simpl in *.
      * congruence.
      * eapply Hid; eassumption.
Qed.

Lemma initialAnswers_ids (qs : list Question.t) :
  map questionId (initialAnswers qs) = map Question.id qs.
Proof.
  unfold initialAnswers. induction qs as [|q qs IH]; simpl; [reflexivity |].
  now rewrite IH.
Qed.

Lemma aligned_fresh_session (qs : list Question.t) (now : Z) :
  aligned (fresh_session qs now).
Proof. apply aligned_iff_ids. simpl. apply initialAnswers_ids. Qed.

Lemma selectAnswer_ids (qid : string) (answer : Z) (s : TestState) :
  map questionId (answers (selectAnswer qid answer s)) = map questionId (answers s).
Proof.
  simpl. induction (answers s) as [|a l IH]; simpl; [reflexivity |].
  rewrite IH. now destruct (String.eqb (questionId a) qid).
Qed.

Lemma markForReview_ids (qid : string) (s : TestState) :
  map questionId (answers (markForReview qid s)) = map questionId (answers s).
Proof.
  simpl. induction (answers s) as [|a l IH]; simpl; [reflexivity |].
  rewrite IH. now destruct (String.eqb (questionId a) qid).
Qed.

Lemma loadQuestions_state sort_random reply now w :
  exists qs, loadQuestions sort_random reply now w
             = (inr tt, {| testState := fresh_session qs now;
                           inserts := inserts w |}).
Proof.
  unfold loadQuestions, try_catch, mbind, M_bind, bind, supabase_select.
  destruct reply as [e | data error]; simpl; eexists; reflexivity.
Qed.

Lemma submitTest_state user reply now w :
  testState (snd (submitTest user reply now w)) = testState w \/
  testState (snd (submitTest user reply now w)) = endTest (testState w).
Proof.
  unfold submitTest.
  destruct user as [u|]; [| left; reflexivity].
  unfold try_catch, mbind, M_bind, bind, supabase_insert, get_testState.
  destruct reply as [e | [e|]]; simpl; auto.
Qed.

(** Every operation of the provider keeps an aligned session aligned. *)
Lemma perform_aligned (c : Call) (w : World) :
  aligned (testState w) -> aligned (testState (snd (perform c w))).
Proof.
  intros Hw. destruct c; unfold perform, startTest.
  - destruct (loadQuestions_state sort_random reply now w) as [qs ->].
    apply aligned_fresh_session.
  - exact Hw.
  - apply aligned_iff_ids in Hw. apply aligned_iff_ids.
    cbn [setTestState snd testState]. rewrite selectAnswer_ids. exact Hw.
  - apply aligned_iff_ids in Hw. apply aligned_iff_ids.
    cbn [setTestState snd testState]. rewrite markForReview_ids. exact Hw.
  - exact Hw.
  - exact Hw.
  - exact Hw.
  - destruct (submitTest_state user reply now w) as [-> | ->]; exact Hw.
Qed.

Lemma run_aligned (cs : list Call) (w : World) :
  aligned (testState w) -> aligned (testState (run cs w)).
Proof.
  revert w. induction cs as [|c cs IH]; intros w Hw; [exact Hw |].
  apply IH. now apply perform_aligned.
Qed.

(** C1. After [startTest] completes, and after each of [selectAnswer],
    [markForReview], [navigateToQuestion], [nextQuestion] and
    [previousQuestion], the answers have the length of the questions and
    [answers[i].questionId] is [questions[i].id] at every index; hence in
    every state a session reaches from the initial one. *)
Theorem C1_answers_stay_aligned :
  (forall sort_random reply now w,
      aligned (testState (snd (startTest sort_random reply now w)))) /\
  (forall s, aligned s ->
      forall qid answer index,
        aligned (selectAnswer qid answer s) /\
        aligned (markForReview qid s) /\
        aligned (navigateToQuestion index s) /\
        aligned (nextQuestion s) /\
        aligned (previousQuestion s)) /\
  (forall cs, aligned (testState (run cs initialWorld))).
Proof.
  split; [| split].
  - intros sort_random reply now w. unfold startTest.
    destruct (loadQuestions_state sort_random reply now w) as [qs ->].
    apply aligned_fresh_session.
  - intros s Hs qid answer index.
    pose (w := {| testState := s; inserts := [] |}).
    split; [| split; [| split; [| split]]].
    + exact (perform_aligned (CallSelectAnswer qid answer) w Hs).
    + exact (perform_aligned (CallMarkForReview qid) w Hs).
    + exact (perform_aligned (CallNavigateToQuestion index) w Hs).
    + exact (perform_aligned CallNextQuestion w Hs).
    + exact (perform_aligned CallPreviousQuestion w Hs).
  - intros cs. apply run_aligned. apply aligned_iff_ids. reflexivity.
Qed.

Lemma C1_answers_stay_aligned_witness :
  aligned (fresh_session mockQuestions 0) /\
  aligned (selectAnswer "math_2" 3 (fresh_session mockQuestions 0)) /\
  aligned (markForReview "math_2" (fresh_session mockQuestions 0)).
Proof.
  assert (H : aligned (fresh_session mockQuestions 0))
    by (apply aligned_iff_ids; reflexivity).
  split; [exact H |].
  destruct (proj1 (proj2 C1_answers_stay_aligned) _ H "math_2" 3 0)
    as (Hsel & Hmark & _).
  split; [exact Hsel | exact Hmark].
Defined.

(** ** Cursor *)

Lemma move_in_range (m : Move) (s : TestState) :
  in_range s -> in_range (move m s).
Proof.
  unfold in_range. destruct m; simpl; lia.
Qed.

Lemma moves_in_range (ms : list Move) (s : TestState) :
  in_range s -> in_range (moves ms s).
Proof.
  revert s. induction ms as [|m ms IH]; intros s Hs; [exact Hs |].
  apply IH. now apply move_in_range.
Qed.

(** ** Mark for review *)

Lemma TestAnswer_eta (a : TestAnswer) :
  {| questionId := questionId a; selectedAnswer := selectedAnswer a;
     timeSpent := timeSpent a; marked := marked a |} = a.
Proof. now destruct a. Qed.

(** One application flips the flag of every record carrying the id. *)
Lemma markForReview_toggles (qid : string) (s : TestState) (i : nat)
    (a : TestAnswer) :
  answers s !! i = Some a -> questionId a = qid ->
  marked <$> (answers (markForReview qid s) !! i) = Some (negb (marked a)).
Proof.
  intros Ha Hq. simpl. rewrite list_lookup_fmap, Ha. simpl.
  rewrite (proj2 (String.eqb_eq _ _) Hq). reflexivity.
Qed.

(** C8. [markForReview] applied twice with the same question id gives back
    the state it started from: the marked flag has its original value and
    nothing else has changed. *)
Theorem C8_markForReview_twice (qid : string) (s : TestState) :
  markForReview qid (markForReview qid s) = s.
Proof.
  destruct s as [qs ans c tr act st].
  unfold markForReview, with_answers; simpl. f_equal.
  induction ans as [|a ans IH]; simpl; [reflexivity |].
  rewrite IH. f_equal.
  destruct (String.eqb (questionId a) qid) eqn:E; simpl.
  - rewrite E. simpl. rewrite negb_involutive. apply TestAnswer_eta.
  - now rewrite E.
Qed.

(** ** Navigation *)

(** C9. [navigateToQuestion] stores the index it is given, whatever integer
    it is: nothing is clamped or rejected, and no other field changes. *)
Theorem C9_navigateToQuestion_verbatim (index : Z) (s : TestState) :
  currentQuestion (navigateToQuestion index s) = index /\
  questions (navigateToQuestion index s) = questions s /\
  answers (navigateToQuestion index s) = answers s /\
  timeRemaining (navigateToQuestion index s) = timeRemaining s /\
  isActive (navigateToQuestion index s) = isActive s /\
  startTime (navigateToQuestion index s) = startTime s.
Proof. repeat split. Qed.

(** An index past the end, and a negative one, are taken as they are. *)
Example navigateToQuestion_out_of_range :
  currentQuestion (navigateToQuestion 100 (fresh_session mockQuestions 0)) = 100 /\
  currentQuestion (navigateToQuestion (-1) (fresh_session mockQuestions 0)) = -1.
Proof. split; reflexivity. Qed.

(** ** Scorer *)

Lemma inherited_true (key : string) :
  inherited key = true <-> In key object_prototype_names.
Proof.
  unfold inherited. rewrite existsb_exists. split.
  - intros (x & Hx & E). apply String.eqb_eq in E. now subst.
  - intros H. exists key. split; [exact H | apply String.eqb_refl].
Qed.

(** The entry of one subject after one step of the loop. *)
Lemma tally_lookup (qs : list Question.t) (m : gmap string SubjectScore)
    (a : TestAnswer) (i : nat) (q : Question.t) (subj : string) :
  qs !! i = Some q ->
  tally qs m a i !! subj =
    if inherited (Question.subject q) then m !! subj
    else if String.eqb (Question.subject q) subj
         then Some {| correct := from_option correct 0 (m !! subj)
                                 + (if strict_eq (selectedAnswer a)
                                                 (Question.correctAnswer q)
                                    then 1 else 0);
                      total := from_option total 0 (m !! subj) + 1 |}
         else m !! subj.
Proof.
  intros Hq. unfold tally. rewrite Hq.
  destruct (inherited (Question.subject q)); [reflexivity |].
  destruct (String.eqb (Question.subject q) subj) eqn:E.
  - apply String.eqb_eq in E. subst subj.
    destruct (m !! Question.subject q) as [sc|] eqn:Hm;
      destruct (strict_eq (selectedAnswer a) (Question.correctAnswer q));
      repeat rewrite lookup_alter_eq; try rewrite lookup_insert_eq;
      try rewrite Hm; simpl; f_equal; f_equal; lia.
  - apply String.eqb_neq in E.
    destruct (m !! Question.subject q) as [sc|] eqn:Hm;
      destruct (strict_eq (selectedAnswer a) (Question.correctAnswer q));
      repeat (rewrite lookup_alter_ne by exact E);
      try (rewrite lookup_insert_ne by exact E); reflexivity.
Qed.

Lemma tally_out_of_range (qs : list Question.t) (m : gmap string SubjectScore)
    (a : TestAnswer) (i : nat) :
  qs !! i = None -> tally qs m a i = m.
Proof. intros H. unfold tally. now rewrite H. Qed.

Lemma tally_singleton (qs : list Question.t) (m : gmap string SubjectScore)
    (a : TestAnswer) (i : nat) (q : Question.t) :
  qs !! i = Some q -> tally qs m a i = tally [q] m a 0.
Proof. intros H. unfold tally. rewrite H. reflexivity. Qed.

(** The indexed loop over the answers is a fold over the positions that
    have both a question and an answer. *)
Lemma forEach_tally_zip (qs : list Question.t) (ans : list TestAnswer)
    (i : nat) (m : gmap string SubjectScore) :
  forEach_from (tally qs) i ans m =
  foldl (fun acc qa => tally [fst qa] acc (snd qa) 0) m (zip (drop i qs) ans).
Proof.
  revert i m. induction ans as [|a ans IH]; intros i m.
  - simpl. now destruct (drop i qs).
  - simpl. destruct (qs !! i) as [q|] eqn:Hq.
    + rewrite (drop_S _ _ _ Hq). simpl. rewrite IH.
      now rewrite (tally_singleton qs m a i q Hq).
    + rewrite (tally_out_of_range _ _ _ _ Hq), IH.
      apply lookup_ge_None in Hq.
      rewrite !drop_ge by lia. reflexivity.
Qed.

Lemma count_total_cons (subj : string) (qa : Question.t * TestAnswer)
    (l : list (Question.t * TestAnswer)) :
  count_total subj (qa :: l) =
  (if of_subject subj qa then 1 else 0) + count_total subj l.
Proof.
  unfold count_total. cbn [List.filter].
  destruct (of_subject subj qa); cbn [length]; lia.
Qed.

Lemma count_correct_cons (subj : string) (qa : Question.t * TestAnswer)
    (l : list (Question.t * TestAnswer)) :
  count_correct subj (qa :: l) =
  (if of_subject subj qa && answered_correctly qa then 1 else 0)
  + count_correct subj l.
Proof.
  unfold count_correct. cbn [List.filter].
  destruct (of_subject subj qa && answered_correctly qa); cbn [length]; lia.
Qed.

Lemma count_correct_le_total (subj : string)
    (l : list (Question.t * TestAnswer)) :
  0 <= count_correct subj l <= count_total subj l.
Proof.
  induction l as [|qa l IH].
  - unfold count_correct, count_total. simpl. lia.
  - rewrite count_total_cons, count_correct_cons.
    destruct (of_subject subj qa), (answered_correctly qa); cbn [andb]; lia.
Qed.

(** How a subject's entry combines with the counts of further positions. *)
Lemma fold_tally_lookup (l : list (Question.t * TestAnswer))
    (m : gmap string SubjectScore) (subj : string) :
  inherited subj = false ->
  foldl (fun acc qa => tally [fst qa] acc (snd qa) 0) m l !! subj =
    match m !! subj with
    | Some sc => Some {| correct := correct sc + count_correct subj l;
                         total := total sc + count_total subj l |}
    | None => if count_total subj l =? 0 then None
              else Some {| correct := count_correct subj l;
                           total := count_total subj l |}
    end.
Proof.
  intros Hsubj. revert m. induction l as [|[q a] l IH]; intros m.
  - simpl. destruct (m !! subj) as [[c t]|]; [| reflexivity].
    unfold count_correct, count_total. simpl. do 2 f_equal; lia.
  - cbn [foldl fst snd]. rewrite IH.
    rewrite (tally_lookup [q] m a 0 q subj eq_refl).
    rewrite count_total_cons, count_correct_cons.
    unfold of_subject, answered_correctly. cbn [fst snd].
    pose proof (count_correct_le_total subj l) as Hle.
    destruct (String.eqb (Question.subject q) subj) eqn:E.
    + apply String.eqb_eq in E. rewrite E, Hsubj. cbn [andb].
      destruct (m !! subj) as [[c t]|]; cbn [from_option correct total].
      * do 2 f_equal; lia.
      * destruct (Z.eqb_spec (1 + count_total subj l) 0) as [Hz|Hz]; [lia |].
        do 2 f_equal; lia.
    + cbn [andb]. rewrite !Z.add_0_l.
      destruct (inherited (Question.subject q)); reflexivity.
Qed.

Lemma fold_tally_inherited (l : list (Question.t * TestAnswer))
    (m : gmap string SubjectScore) (subj : string) :
  inherited subj = true ->
  foldl (fun acc qa => tally [fst qa] acc (snd qa) 0) m l !! subj = m !! subj.
Proof.
  intros Hsubj. revert m. induction l as [|[q a] l IH]; intros m; [reflexivity |].
  cbn [foldl fst snd]. rewrite IH.
  rewrite (tally_lookup [q] m a 0 q subj eq_refl).
  destruct (inherited (Question.subject q)) eqn:Hq; [reflexivity |].
  destruct (String.eqb (Question.subject q) subj) eqn:E; [| reflexivity].
  apply String.eqb_eq in E. congruence.
Qed.

(** The entry [subjectScores] owns for a subject, in terms of the positions
    of the session. *)
Lemma subjectScores_lookup (s : TestState) (subj : string) :
  let l := zip (questions s) (answers s) in
  subjectScores s !! subj =
    if inherited subj then None
    else if count_total subj l =? 0 then None
         else Some {| correct := count_correct subj l;
                      total := count_total subj l |}.
Proof.
  cbv zeta. unfold subjectScores. rewrite forEach_tally_zip, drop_0.
  destruct (inherited subj) eqn:H.
  - rewrite (fold_tally_inherited _ _ _ H). apply lookup_empty.
  - rewrite (fold_tally_lookup _ _ _ H), lookup_empty. reflexivity.
Qed.

(** Every entry counts at least one question and no more correct answers
    than questions. *)
Lemma subjectScores_entry (s : TestState) (subj : string) (sc : SubjectScore) :
  subjectScores s !! subj = Some sc ->
  0 <= correct sc <= total sc /\ 0 < total sc.
Proof.
  rewrite subjectScores_lookup. cbv zeta.
  destruct (inherited subj); [discriminate |].
  pose proof (count_correct_le_total subj (zip (questions s) (answers s))) as H.
  destruct (Z.eqb_spec (count_total subj (zip (questions s) (answers s))) 0) as [E|E];
    [discriminate |].
  intros [= <-]. simpl. lia.
Qed.

Lemma count_total_questions (subj : string) (qs : list Question.t)
    (ans : list TestAnswer) :
  length ans = length qs ->
  count_total subj (zip qs ans) =
  Z.of_nat (length (List.filter
                      (fun q => String.eqb (Question.subject q) subj) qs)).
Proof.
  unfold count_total, of_subject. revert ans.
  induction qs as [|q qs IH]; intros [|a ans] Hlen; try discriminate Hlen;
    [reflexivity |].
  injection Hlen as Hlen. specialize (IH ans Hlen).
  cbn [zip zip_with List.filter fst].
  destruct (String.eqb (Question.subject q) subj); cbn [length]; lia.
Qed.

(** ** Percentage *)

Lemma Math_round_quotient (c : Z) (t : positive) :
  Math_round ((inject_Z c / inject_Z (Z.pos t)) * inject_Z 100)%Q =
  (200 * c + Z.pos t) / (2 * Z.pos t).
Proof.
  unfold Math_round.
  rewrite (Qfloor_comp _ ((200 * c + Z.pos t) # (2 * t))).
  - unfold Qfloor. now rewrite Pos2Z.inj_mul.
  - unfold Qeq, Qplus, Qmult, Qdiv, Qinv, inject_Z. simpl. lia.
Qed.

Lemma percentage_quotient (sc : SubjectScore) :
  0 < total sc ->
  percentage sc = (200 * correct sc + total sc) / (2 * total sc).
Proof.
  intros Ht. unfold percentage.
  destruct (Z.ltb_spec 0 (total sc)) as [_|]; [| lia].
  destruct (total sc) as [|t|t] eqn:E; try lia.
  apply Math_round_quotient.
Qed.

(** The percentage is the nearest integer to [100 * correct / total]. *)
Lemma percentage_rounds (sc : SubjectScore) :
  0 < total sc ->
  is_rounded_percentage (correct sc) (total sc) (percentage sc).
Proof.
  intros Ht. rewrite (percentage_quotient sc Ht). unfold is_rounded_percentage.
  pose proof (Z.div_mod (200 * correct sc + total sc) (2 * total sc)) as Hdm.
  pose proof (Z.mod_pos_bound (200 * correct sc + total sc) (2 * total sc)) as Hb.
  lia.
Qed.

Lemma percentage_bounds (sc : SubjectScore) :
  0 <= correct sc <= total sc ->
  0 <= percentage sc <= 100.
Proof.
  intros Hc. destruct (Z_lt_le_dec 0 (total sc)) as [Ht|Ht].
  - pose proof (percentage_rounds sc Ht) as H.
    unfold is_rounded_percentage in H. nia.
  - unfold percentage. destruct (Z.ltb_spec 0 (total sc)); lia.
Qed.

(** ** Submission records *)

Lemma testResults_In (u : User.t) (now : Z) (s : TestState) (r : TestResult.t) :
  In r (testResults u now s) ->
  exists sc, subjectScores s !! TestResult.subject r = Some sc /\
             TestResult.score r = percentage sc.
Proof.
  unfold testResults. rewrite in_map_iff. intros ([subj sc] & <- & Hin).
  apply list_elem_of_In, elem_of_map_to_list in Hin.
  exists sc. split; [exact Hin | reflexivity].
Qed.

Lemma testResults_entry (u : User.t) (now : Z) (s : TestState) (subj : string)
    (sc : SubjectScore) :
  subjectScores s !! subj = Some sc ->
  exists r, In r (testResults u now s) /\
            TestResult.subject r = subj /\ TestResult.score r = percentage sc.
Proof.
  intros H. apply elem_of_map_to_list, list_elem_of_In in H.
  unfold testResults. eexists. split.
  - apply in_map_iff. exists (subj, sc). split; [reflexivity | exact H].
  - split; reflexivity.
Qed.

(** The scorer on subjects whose name [Object.prototype] does not define:
    no entry and no record without a question of the subject; otherwise one
    entry with the two counts, and a record whose score is the rounded
    percentage. *)
Lemma scorer_spec (s : TestState) (subj : string) :
  length (answers s) = length (questions s) ->
  inherited subj = false ->
  let l := zip (questions s) (answers s) in
  let n := Z.of_nat (length (List.filter
                               (fun q => String.eqb (Question.subject q) subj)
                               (questions s))) in
  (n = 0 ->
     subjectScores s !! subj = None /\
     forall u now r, In r (testResults u now s) -> TestResult.subject r <> subj) /\
  (0 < n ->
     subjectScores s !! subj
       = Some {| correct := count_correct subj l; total := n |} /\
     forall u now, exists r,
       In r (testResults u now s) /\ TestResult.subject r = subj /\
       is_rounded_percentage (count_correct subj l) n (TestResult.score r)).
Proof.
  intros Hlen Hsubj l n.
  assert (Hn : count_total subj l = n) by (apply count_total_questions, Hlen).
  assert (Hlook := subjectScores_lookup s subj). cbv zeta in Hlook.
  fold l in Hlook. rewrite Hsubj, Hn in Hlook.
  split.
  - intros Hz. rewrite Hz in Hlook. cbn in Hlook. split; [exact Hlook |].
    intros u now r Hin Hr. apply testResults_In in Hin as (sc & Hsc & _).
    congruence.
  - intros Hpos. destruct (Z.eqb_spec n 0) as [|_]; [lia |].
    split; [exact Hlook |]. intros u now.
    destruct (testResults_entry u now s subj _ Hlook) as (r & Hin & Hr & Hscore).
    exists r. split; [exact Hin |]. split; [exact Hr |].
    rewrite Hscore.
    apply (percentage_rounds {| correct := count_correct subj l; total := n |}).
    exact Hpos.
Qed.

(** The worked example of the spec: two Math questions, one answered
    correctly. *)
Example scorer_example_math :
  subjectScores scorer_example = {[ "Math" := {| correct := 1; total := 2 |} ]} /\
  map (fun r => (TestResult.subject r, TestResult.score r))
      (testResults alice 0 scorer_example)
  = [("Math", 50)].
Proof. split; vm_compute; reflexivity. Qed.

(** C2, at a subject named like a member of [Object.prototype]: the session
    below comes from a remote bank whose only question has the subject
    [constructor], and the question is answered correctly.  The sequences
    are aligned and the subject has one question, yet [subjectScores] gets
    no entry and [submitTest] builds no record for it. *)
Theorem C2_inherited_subject_gets_no_entry :
  let s := testState (run constructor_calls initialWorld) in
  aligned s /\
  map Question.subject (questions s) = ["constructor"] /\
  count_total "constructor" (zip (questions s) (answers s)) = 1 /\
  count_correct "constructor" (zip (questions s) (answers s)) = 1 /\
  subjectScores s !! "constructor" = None /\
  testResults alice 1000 s = [].
Proof.
  cbv zeta. split.
  - apply run_aligned. apply aligned_iff_ids. reflexivity.
  - repeat split; vm_compute; reflexivity.
Qed.

(** C6. A record whose [selectedAnswer] is null is never counted as
    correct, whatever the question's correct index: the comparison is
    false, the position is not among the correct ones, and the scorer's
    step at that position leaves the [correct] counter of every subject as
    it was. *)
Theorem C6_null_selection_never_correct (q : Question.t) (a : TestAnswer) :
  selectedAnswer a = None ->
  strict_eq (selectedAnswer a) (Question.correctAnswer q) = false /\
  answered_correctly (q, a) = false /\
  forall (qs : list Question.t) (m : gmap string SubjectScore) (i : nat)
         (subj : string),
    qs !! i = Some q ->
    from_option correct 0 (tally qs m a i !! subj)
    = from_option correct 0 (m !! subj).
Proof.
  intros Hnull. unfold answered_correctly. cbn [fst snd]. rewrite Hnull.
  split; [reflexivity |]. split; [reflexivity |].
  intros qs m i subj Hq. rewrite (tally_lookup qs m a i q subj Hq), Hnull.
  cbn [strict_eq].
  destruct (inherited (Question.subject q)); [reflexivity |].
  destruct (String.eqb (Question.subject q) subj); [| reflexivity].
  cbn [from_option correct]. lia.
Qed.

Lemma C6_null_selection_never_correct_witness :
  let q := Question.mk "math_1" "Math" "What is 15 × 8?"
                       ["120"; "110"; "130"; "125"] 0 easy in
  let a := mkTestAnswer "math_1" None 0 false in
  selectedAnswer a = None /\
  from_option correct 0 (tally [q] ∅ a 0 !! "Math") = 0 /\
  from_option total 0 (tally [q] ∅ a 0 !! "Math") = 1.
Proof.
  cbv zeta. split; [reflexivity |]. split; [| vm_compute; reflexivity].
  rewrite (proj2 (proj2 (C6_null_selection_never_correct
                           (Question.mk "math_1" "Math" "What is 15 × 8?"
                                        ["120"; "110"; "130"; "125"] 0 easy)
                           (mkTestAnswer "math_1" None 0 false) eq_refl))
                 [Question.mk "math_1" "Math" "What is 15 × 8?"
                              ["120"; "110"; "130"; "125"] 0 easy]
                 ∅ 0%nat "Math" eq_refl).
  reflexivity.
Defined.

(** C10. Every record [submitTest] builds has a score between 0 and 100. *)
Theorem C10_score_between_0_and_100 (u : User.t) (now : Z) (s : TestState)
    (r : TestResult.t) :
  In r (testResults u now s) -> 0 <= TestResult.score r <= 100.
Proof.
  intros Hin. apply testResults_In in Hin as (sc & Hsc & ->).
  apply percentage_bounds. now apply subjectScores_entry in Hsc.
Qed.

Lemma C10_score_between_0_and_100_witness :
  In math_record (testResults alice 0 scorer_example) /\
  0 <= TestResult.score math_record <= 100.
Proof.
  assert (H : In math_record (testResults alice 0 scorer_example))
    by (vm_compute; left; reflexivity).
  split; [exact H |].
  exact (C10_score_between_0_and_100 alice 0 scorer_example math_record H).
Defined.

(** ** Submission *)

(** C4. Without an authenticated user [submitTest] throws
    [Error('User not authenticated')] to its caller and changes nothing:
    the session (questions, answers, cursor, timer, active flag) is the one
    it was, and no batch of records reaches the backend. *)
Theorem C4_submit_requires_user (reply : InsertReply) (now : Z) (w : World) :
  submitTest None reply now w = (inl (Error "User not authenticated"), w) /\
  testState (snd (submitTest None reply now w)) = testState w /\
  inserts (snd (submitTest None reply now w)) = inserts w.
Proof. repeat split. Qed.

Lemma submitTest_run (u : User.t) (reply : InsertReply) (now : Z) (w : World) :
  submitTest (Some u) reply now w =
  let sent := testResults u now (testState w) :: inserts w in
  match insert_failure reply with
  | Some e => (inl e, {| testState := testState w; inserts := sent |})
  | None => (inr tt, {| testState := endTest (testState w); inserts := sent |})
  end.
Proof.
  unfold submitTest, try_catch, mbind, M_bind, bind, get_testState,
    supabase_insert.
  destruct reply as [e | [e|]]; reflexivity.
Qed.

(** C3. With an authenticated user: if the batch write fails, the failure
    reaches the caller of [submitTest] and the session is as it was, so an
    active session stays active; if the write succeeds, [submitTest]
    returns normally and the session is inactive.  Either way the batch
    handed to the backend is the one record list built from the session. *)
Theorem C3_submit_outcome (u : User.t) (reply : InsertReply) (now : Z)
    (w : World) :
  let out := submitTest (Some u) reply now w in
  (forall e, insert_failure reply = Some e ->
     fst out = inl e /\
     testState (snd out) = testState w /\
     (isActive (testState w) = true -> isActive (testState (snd out)) = true)) /\
  (insert_failure reply = None ->
     fst out = inr tt /\
     testState (snd out) = endTest (testState w) /\
     isActive (testState (snd out)) = false) /\
  inserts (snd out) = testResults u now (testState w) :: inserts w.
Proof.
  cbv zeta. rewrite submitTest_run. cbv zeta.
  split; [| split].
  - intros e ->. simpl. auto.
  - intros ->. simpl. auto.
  - destruct (insert_failure reply); reflexivity.
Qed.

Lemma C3_submit_outcome_witness :
  let w := {| testState := fresh_session mockQuestions 0; inserts := [] |} in
  let failed := submitTest (Some alice) (InsertResolves (Some (BackendError "timeout"))) 5000 w in
  let stored := submitTest (Some alice) (InsertResolves None) 5000 w in
  (fst failed = inl (BackendError "timeout") /\
   isActive (testState (snd failed)) = true) /\
  (fst stored = inr tt /\ isActive (testState (snd stored)) = false).
Proof.
  cbv zeta. split.
  - destruct (proj1 (C3_submit_outcome alice
                       (InsertResolves (Some (BackendError "timeout"))) 5000
                       {| testState := fresh_session mockQuestions 0;
                          inserts := [] |})
                    (BackendError "timeout") eq_refl) as (Hfst & _ & Hact).
    split; [exact Hfst | exact (Hact eq_refl)].
  - destruct (proj1 (proj2 (C3_submit_outcome alice (InsertResolves None) 5000
                              {| testState := fresh_session mockQuestions 0;
                                 inserts := [] |}))
                    eq_refl) as (Hfst & _ & Hact).
    split; [exact Hfst | exact Hact].
Defined.

(** ** Loading questions *)

Section Loader.

Variable sort_random : list Question.t -> list Question.t.

(** [Array.prototype.sort] rearranges the elements it is given, whatever
    the comparator answers. *)
Hypothesis sort_random_permutes : forall l, Permutation l (sort_random l).

Lemma sort_random_mock_all :
  take 6 (sort_random mockQuestions) = sort_random mockQuestions.
Proof.
  apply take_ge.
  rewrite <- (Permutation_length (sort_random_permutes mockQuestions)).
  simpl. lia.
Qed.

Lemma loadQuestions_run (reply : SelectReply) (now : Z) (w : World) :
  loadQuestions sort_random reply now w =
  (inr tt,
   {| testState :=
        fresh_session
          match reply with
          | SelectRejects _ => take 6 (sort_random mockQuestions)
          | SelectResolves data error =>
              let selected :=
                if usable data error then map convert (default [] data)
                else mockQuestions in
              take (Nat.min 6 (length (sort_random selected)))
                   (sort_random selected)
          end now;
      inserts := inserts w |}).
Proof. destruct reply; reflexivity. Qed.

Lemma take_session_size (qs : list Question.t) :
  length qs = 6%nat ->
  take (Nat.min 6 (length (sort_random qs))) (sort_random qs) = sort_random qs.
Proof.
  intros H. apply take_ge.
  rewrite <- (Permutation_length (sort_random_permutes qs)), H.
  reflexivity.
Qed.

Lemma loadQuestions_fallback (reply : SelectReply) (now : Z) (w : World) :
  remote_failed reply ->
  loadQuestions sort_random reply now w =
  (inr tt, {| testState := fresh_session (sort_random mockQuestions) now;
              inserts := inserts w |}).
Proof.
  intros Hfail. rewrite loadQuestions_run. do 3 f_equal.
  destruct Hfail as [e | data e | error].
  - exact sort_random_mock_all.
  - replace (usable data (Some e)) with false by (now destruct data as [[|]|]).
    cbv zeta. now apply take_session_size.
  - replace (usable (Some []) error) with false by (now destruct error).
    cbv zeta. now apply take_session_size.
Qed.

(** A started session has a question under the cursor. *)
Lemma startTest_in_range (reply : SelectReply) (now : Z) (w : World) :
  in_range (testState (snd (startTest sort_random reply now w))).
Proof.
  assert (Hne : forall qs, qs <> [] ->
            in_range (fresh_session
                        (take (Nat.min 6 (length (sort_random qs)))
                              (sort_random qs)) now)).
  { intros qs Hqs. unfold in_range.
    cbn [fresh_session currentQuestion questions].
    rewrite length_take.
    pose proof (Permutation_length (sort_random_permutes qs)) as Hlen.
    destruct qs; [congruence |]. simpl in Hlen. lia. }
  unfold startTest. rewrite loadQuestions_run. cbn [snd testState].
  destruct reply as [e | data error].
  - rewrite sort_random_mock_all.
    rewrite <- (take_session_size mockQuestions eq_refl).
    apply Hne. discriminate.
  - cbv zeta. apply Hne. destruct (usable data error) eqn:Hu; [| discriminate].
    destruct error, data as [[|]|]; try discriminate Hu. discriminate.
Qed.

(** C7. When the remote read throws, returns an error or returns an empty
    set, [startTest] returns normally (the failure does not reach its
    caller) and the session is built from the built-in set alone: every
    question is one of [mockQuestions], and there are
    [min(6, len(mockQuestions)) = 6] of them. *)
Theorem C7_fallback_to_mockQuestions (reply : SelectReply) (now : Z)
    (w : World) :
  remote_failed reply ->
  let out := startTest sort_random reply now w in
  let s := testState (snd out) in
  fst out = inr tt /\
  (forall q, In q (questions s) -> In q mockQuestions) /\
  Permutation mockQuestions (questions s) /\
  length (questions s) = Nat.min 6 (length mockQuestions) /\
  length (questions s) = 6%nat /\
  answers s = initialAnswers (questions s) /\
  isActive s = true.
Proof.
  intros Hfail. cbv zeta. unfold startTest.
  rewrite (loadQuestions_fallback reply now w Hfail).
  cbn [fst snd testState fresh_session questions answers isActive].
  pose proof (sort_random_permutes mockQuestions) as Hperm.
  repeat split.
  - intros q Hq. eapply Permutation_in; [symmetry; exact Hperm | exact Hq].
  - exact Hperm.
  - rewrite <- (Permutation_length Hperm). reflexivity.
  - rewrite <- (Permutation_length Hperm). reflexivity.
Qed.

End Loader.

Lemma C7_fallback_to_mockQuestions_witness :
  let out := startTest (@rev Question.t) (SelectRejects (Error "Failed to fetch"))
                       0 initialWorld in
  fst out = inr tt /\
  questions (testState (snd out)) = rev mockQuestions /\
  length (questions (testState (snd out))) = 6%nat.
Proof.
  cbv zeta.
  destruct (C7_fallback_to_mockQuestions (@rev Question.t)
              (fun l => Permutation_rev l)
              (SelectRejects (Error "Failed to fetch")) 0 initialWorld
              (remote_throws (Error "Failed to fetch")))
    as (Hret & _ & _ & _ & Hlen & _).
  split; [exact Hret |]. split; [reflexivity | exact Hlen].
Defined.

(** ** Cursor bounds *)

(** C5. [nextQuestion] sets the cursor to [min(cursor + 1, len - 1)] and
    [previousQuestion] to [max(cursor - 1, 0)]; at the last index the first
    stays, at index 0 the second stays (no wraparound); no sequence of the
    two, however long, moves a cursor out of [[0, len(questions) - 1]]; and
    a started session, whose cursor is 0, stays in that range under every
    such sequence. *)
Theorem C5_cursor_never_leaves_range (s : TestState) :
  let last := Z.of_nat (length (questions s)) - 1 in
  currentQuestion (nextQuestion s) = Z.min (currentQuestion s + 1) last /\
  currentQuestion (previousQuestion s) = Z.max (currentQuestion s - 1) 0 /\
  (currentQuestion s = last -> currentQuestion (nextQuestion s) = last) /\
  (currentQuestion s = 0 -> currentQuestion (previousQuestion s) = 0) /\
  (forall ms : list Move, in_range s -> in_range (moves ms s)) /\
  (forall sort_random reply now w (ms : list Move),
      (forall l, Permutation l (sort_random l)) ->
      in_range (moves ms (testState (snd (startTest sort_random reply now w))))).
Proof.
  cbv zeta. split; [| split; [| split; [| split; [| split]]]].
  - reflexivity.
  - reflexivity.
  - intros H. simpl. lia.
  - intros H. simpl. lia.
  - intros ms. apply moves_in_range.
  - intros sort_random reply now w ms Hperm.
    apply moves_in_range. now apply startTest_in_range.
Qed.

Lemma C5_cursor_never_leaves_range_witness :
  let s := fresh_session mockQuestions 0 in
  let ms := [Previous; Next; Next; Next; Next; Next; Next; Next] in
  in_range s /\ in_range (moves ms s) /\ currentQuestion (moves ms s) = 5 /\
  in_range (moves ms (testState (snd (startTest (@rev Question.t)
                                        (SelectRejects (Error "Failed to fetch"))
                                        0 initialWorld)))).
Proof.
  cbv zeta.
  assert (H : in_range (fresh_session mockQuestions 0))
    by (unfold in_range; simpl; lia).
  pose proof (C5_cursor_never_leaves_range (fresh_session mockQuestions 0))
    as (_ & _ & _ & _ & Hmoves & Hstart).
  split; [exact H |]. split; [exact (Hmoves _ H) |]. split; [reflexivity |].
  exact (Hstart (@rev Question.t) (SelectRejects (Error "Failed to fetch")) 0
                initialWorld _ (fun l => Permutation_rev l)).
Defined.

(** ** Session size, and the percentage on doubles *)

Lemma perform_session_size (c : Call) (w : World) :
  (length (questions (testState w)) <= 6)%nat ->
  (length (questions (testState (snd (perform c w)))) <= 6)%nat.
Proof.
  intros Hw. destruct c; unfold perform, startTest; try exact Hw.
  - rewrite loadQuestions_run. cbn [snd testState fresh_session questions].
    destruct reply; cbv zeta; rewrite length_take; lia.
  - destruct (submitTest_state user reply now w) as [-> | ->]; exact Hw.
Qed.

(** No session holds more than six questions. *)
Lemma run_session_size (cs : list Call) :
  (length (questions (testState (run cs initialWorld))) <= 6)%nat.
Proof.
  assert (H : forall w, (length (questions (testState w)) <= 6)%nat ->
                        (length (questions (testState (run cs w))) <= 6)%nat).
  { induction cs as [|c cs IH]; intros w Hw; [exact Hw |].
    apply IH. now apply perform_session_size. }
  apply H. simpl. lia.
Qed.

Lemma count_total_le_length (subj : string)
    (l : list (Question.t * TestAnswer)) :
  count_total subj l <= Z.of_nat (length l).
Proof.
  induction l as [|qa l IH].
  - unfold count_total. simpl. lia.
  - rewrite count_total_cons. cbn [length].
    destruct (of_subject subj qa); lia.
Qed.

Lemma subjectScores_total_le (s : TestState) (subj : string)
    (sc : SubjectScore) :
  subjectScores s !! subj = Some sc ->
  total sc <= Z.of_nat (length (questions s)).
Proof.
  rewrite subjectScores_lookup. cbv zeta.
  destruct (inherited subj); [discriminate |].
  destruct (count_total subj (zip (questions s) (answers s)) =? 0);
    [discriminate |].
  intros [= <-]. cbn [total].
  pose proof (count_total_le_length subj (zip (questions s) (answers s))) as H.
  rewrite length_zip in H. lia.
Qed.

Lemma binary64_agrees_upto_39 : binary64_agrees_upto 39 = true.
Proof. vm_compute. reflexivity. Qed.

(** Up to a total of 39 the double computation
    [Math.round((correct / total) * 100)] yields the integer the rational
    computation yields. *)
Lemma binary64_percentage (sc : SubjectScore) :
  0 <= correct sc <= total sc -> 0 < total sc <= 39 ->
  Binary64.percentage sc = Some (percentage sc).
Proof.
  intros Hc Ht.
  pose proof binary64_agrees_upto_39 as H. unfold binary64_agrees_upto in H.
  rewrite forallb_forall in H.
  specialize (H (Z.to_nat (total sc))).
  rewrite forallb_forall in H.
  assert (Hin : In (Z.to_nat (total sc)) (seq 1 39)) by (apply in_seq; lia).
  specialize (H Hin (Z.to_nat (correct sc))).
  assert (Hin' : In (Z.to_nat (correct sc)) (seq 0 (S (Z.to_nat (total sc)))))
    by (apply in_seq; lia).
  specialize (H Hin'). cbv zeta in H.
  rewrite !Z2Nat.id in H by lia.
  destruct sc as [c t]; cbn [correct total] in *.
  destruct (Binary64.percentage {| correct := c; total := t |}) as [p|];
    [| discriminate H].
  apply Z.eqb_eq in H. now subst.
Qed.

(** At 23 correct out of 40 the double product is 57.49999999999999 and
    rounds down, while the exact quotient 57.5 rounds up. *)
Example binary64_percentage_23_of_40 :
  Binary64.percentage {| correct := 23; total := 40 |} = Some 57 /\
  percentage {| correct := 23; total := 40 |} = 58.
Proof. split; vm_compute; reflexivity. Qed.

(** In every session the doubles give the score the model gives. *)
Lemma run_binary64_percentage (cs : list Call) (subj : string)
    (sc : SubjectScore) :
  subjectScores (testState (run cs initialWorld)) !! subj = Some sc ->
  Binary64.percentage sc = Some (percentage sc).
Proof.
  intros H.
  pose proof (subjectScores_entry _ _ _ H) as [Hc Ht].
  pose proof (subjectScores_total_le _ _ _ H) as Hle.
  pose proof (run_session_size cs) as Hsize.
  apply binary64_percentage; lia.
Qed.

(** * Further properties of the session operations *)

Lemma map_unchanged {A : Type} (f : A -> A) (l : list A) :
  Forall (fun a => f a = a) l -> map f l = l.
Proof.
  induction 1 as [|a l Ha _ IH]; simpl; [reflexivity |]. now rewrite Ha, IH.
Qed.

Lemma with_answers_same (s : TestState) : with_answers s (answers s) = s.
Proof. now destruct s. Qed.

(** X1. [selectAnswer] and [markForReview] with a question id that no answer
    record carries leave the session exactly as it was. *)
Theorem unknown_question_id_is_ignored (qid : string) (answer : Z)
    (s : TestState) :
  Forall (fun a => questionId a <> qid) (answers s) ->
  selectAnswer qid answer s = s /\ markForReview qid s = s.
Proof.
  intros H. unfold selectAnswer, markForReview.
  split; rewrite map_unchanged; try apply with_answers_same;
    (eapply Forall_impl; [exact H |]); intros a Ha; cbv beta;
    destruct (String.eqb_spec (questionId a) qid); congruence.
Qed.

Lemma unknown_question_id_is_ignored_witness :
  let s := fresh_session mockQuestions 0 in
  selectAnswer "history_1" 2 s = s /\ markForReview "history_1" s = s.
Proof.
  apply (unknown_question_id_is_ignored "history_1" 2
           (fresh_session mockQuestions 0)).
  simpl. repeat constructor; discriminate.
Defined.

(** X2. A later [selectAnswer] for a question replaces an earlier one: only the
    last choice is kept. *)
Theorem selectAnswer_last_choice_wins (qid : string) (first second : Z)
    (s : TestState) :
  selectAnswer qid second (selectAnswer qid first s) = selectAnswer qid second s.
Proof.
  unfold selectAnswer, with_answers. cbn [questions answers currentQuestion
    timeRemaining isActive startTime]. f_equal.
  rewrite map_map. apply map_ext. intros a.
  destruct (String.eqb (questionId a) qid) eqn:E; cbn [questionId]; now rewrite E.
Qed.

(** X3. Choices for different questions can be made in either order, and marking
    any question commutes with answering any question and with marking any
    other. *)
Theorem answering_and_marking_commute (q1 q2 : string) (a b : Z)
    (s : TestState) :
  (q1 <> q2 ->
   selectAnswer q1 a (selectAnswer q2 b s)
   = selectAnswer q2 b (selectAnswer q1 a s)) /\
  selectAnswer q1 a (markForReview q2 s) = markForReview q2 (selectAnswer q1 a s) /\
  markForReview q1 (markForReview q2 s) = markForReview q2 (markForReview q1 s).
Proof.
  unfold selectAnswer, markForReview, with_answers.
  cbn [questions answers currentQuestion timeRemaining isActive startTime].
  split; [| split].
  - intros Hne. f_equal. rewrite !map_map. apply map_ext. intros x.
    destruct (String.eqb_spec (questionId x) q1) as [E1|E1];
      destruct (String.eqb_spec (questionId x) q2) as [E2|E2];
      cbn [questionId];
      try (destruct (String.eqb_spec (questionId x) q1); try congruence);
      try (destruct (String.eqb_spec (questionId x) q2); try congruence);
      reflexivity.
  - f_equal. rewrite !map_map. apply map_ext. intros x.
    destruct (String.eqb (questionId x) q1) eqn:E1;
      destruct (String.eqb (questionId x) q2) eqn:E2;
      cbn [questionId selectedAnswer timeSpent marked];
      rewrite ?E1, ?E2; reflexivity.
  - f_equal. rewrite !map_map. apply map_ext. intros x.
    destruct (String.eqb (questionId x) q1) eqn:E1;
      destruct (String.eqb (questionId x) q2) eqn:E2;
      cbn [questionId selectedAnswer timeSpent marked];
      rewrite ?E1, ?E2; reflexivity.
Qed.

Lemma answering_and_marking_commute_witness :
  let s := fresh_session mockQuestions 0 in
  selectAnswer "math_1" 0 (selectAnswer "science_1" 2 s)
  = selectAnswer "science_1" 2 (selectAnswer "math_1" 0 s).
Proof.
  apply (proj1 (answering_and_marking_commute "math_1" "science_1" 0 2
                  (fresh_session mockQuestions 0))).
  discriminate.
Defined.

(** X4. No operation looks at [isActive]: on an ended session answering, marking
    and moving do what they do on an active one, and the session stays
    ended; ending twice is ending once. *)
Theorem ended_session_still_accepts_operations (qid : string) (answer index : Z)
    (s : TestState) :
  selectAnswer qid answer (endTest s) = endTest (selectAnswer qid answer s) /\
  markForReview qid (endTest s) = endTest (markForReview qid s) /\
  navigateToQuestion index (endTest s) = endTest (navigateToQuestion index s) /\
  nextQuestion (endTest s) = endTest (nextQuestion s) /\
  previousQuestion (endTest s) = endTest (previousQuestion s) /\
  endTest (endTest s) = endTest s.
Proof. repeat split. Qed.

(** ** More on the cursor *)

(** X5. Away from the ends [nextQuestion] and [previousQuestion] undo each
    other. *)
Theorem next_previous_round_trip (s : TestState) :
  let last := Z.of_nat (length (questions s)) - 1 in
  (0 <= currentQuestion s < last -> previousQuestion (nextQuestion s) = s) /\
  (0 < currentQuestion s <= last -> nextQuestion (previousQuestion s) = s).
Proof.
  cbv zeta. destruct s as [qs ans c tr act st].
  unfold nextQuestion, previousQuestion, with_currentQuestion.
  cbn [questions answers currentQuestion timeRemaining isActive startTime].
  split; intros H; f_equal; lia.
Qed.

Lemma next_previous_round_trip_witness :
  let s := navigateToQuestion 2 (fresh_session mockQuestions 0) in
  previousQuestion (nextQuestion s) = s /\ nextQuestion (previousQuestion s) = s.
Proof.
  cbv zeta.
  pose proof (next_previous_round_trip
                (navigateToQuestion 2 (fresh_session mockQuestions 0)))
    as [H1 H2].
  split; [apply H1 | apply H2]; simpl; lia.
Defined.

(** X6. Each move clamps on one side only, whatever the cursor was:
    [nextQuestion] never leaves it above the last index and brings a cursor
    at or beyond the last index back to it; [previousQuestion] never leaves
    it negative and brings a cursor at or below 0 back to 0.  With no
    question loaded [nextQuestion] leaves the cursor negative. *)
Theorem moves_clamp_one_side (s : TestState) :
  let last := Z.of_nat (length (questions s)) - 1 in
  currentQuestion (nextQuestion s) <= last /\
  0 <= currentQuestion (previousQuestion s) /\
  (last <= currentQuestion s -> currentQuestion (nextQuestion s) = last) /\
  (currentQuestion s <= 0 -> currentQuestion (previousQuestion s) = 0) /\
  (questions s = [] -> currentQuestion (nextQuestion s) < 0).
Proof.
  cbv zeta. simpl. repeat split; try lia.
  intros ->. simpl. lia.
Qed.

Lemma moves_clamp_one_side_witness :
  currentQuestion (nextQuestion (navigateToQuestion 100
                                   (fresh_session mockQuestions 0))) = 5 /\
  currentQuestion (previousQuestion (navigateToQuestion (-7)
                                       (fresh_session mockQuestions 0))) = 0 /\
  currentQuestion (nextQuestion initialState) < 0.
Proof.
  split; [| split].
  - apply (proj1 (proj2 (proj2 (moves_clamp_one_side
             (navigateToQuestion 100 (fresh_session mockQuestions 0)))))).
    simpl. lia.
  - apply (proj1 (proj2 (proj2 (proj2 (moves_clamp_one_side
             (navigateToQuestion (-7) (fresh_session mockQuestions 0))))))).
    simpl. lia.
  - apply (proj2 (proj2 (proj2 (proj2 (moves_clamp_one_side initialState))))).
    reflexivity.
Defined.

Lemma iter_next_cursor (n : nat) (s : TestState) :
  in_range s ->
  currentQuestion (Nat.iter n nextQuestion s)
  = Z.min (currentQuestion s + Z.of_nat n) (Z.of_nat (length (questions s)) - 1)
  /\ questions (Nat.iter n nextQuestion s) = questions s.
Proof.
  unfold in_range. intros Hs. induction n as [|n [IHc IHq]].
  - simpl. split; [lia | reflexivity].
  - change (Nat.iter (S n) nextQuestion s)
      with (nextQuestion (Nat.iter n nextQuestion s)).
    remember (Nat.iter n nextQuestion s) as t.
    split; [| exact IHq]. simpl. rewrite IHc, IHq. lia.
Qed.

Lemma iter_previous_cursor (n : nat) (s : TestState) :
  in_range s ->
  currentQuestion (Nat.iter n previousQuestion s)
  = Z.max (currentQuestion s - Z.of_nat n) 0.
Proof.
  unfold in_range. intros Hs. induction n as [|n IH].
  - simpl. lia.
  - change (Nat.iter (S n) previousQuestion s)
      with (previousQuestion (Nat.iter n previousQuestion s)).
    remember (Nat.iter n previousQuestion s) as t.
    simpl. rewrite IH. lia.
Qed.

(** X7. From a cursor in range, [n] calls of [nextQuestion] advance it by [n]
    or to the last index, whichever is smaller, and [n] calls of
    [previousQuestion] take it back by [n] or to 0: pressing either often
    enough reaches the end it aims at. *)
Theorem repeated_moves_reach_the_ends (n : nat) (s : TestState) :
  in_range s ->
  let last := Z.of_nat (length (questions s)) - 1 in
  currentQuestion (Nat.iter n nextQuestion s)
    = Z.min (currentQuestion s + Z.of_nat n) last /\
  currentQuestion (Nat.iter n previousQuestion s)
    = Z.max (currentQuestion s - Z.of_nat n) 0 /\
  (last <= Z.of_nat n -> currentQuestion (Nat.iter n nextQuestion s) = last) /\
  (last <= Z.of_nat n -> currentQuestion (Nat.iter n previousQuestion s) = 0).
Proof.
  intros Hs. cbv zeta.
  destruct (iter_next_cursor n s Hs) as [Hn _].
  pose proof (iter_previous_cursor n s Hs) as Hp.
  unfold in_range in Hs. rewrite Hn, Hp. repeat split; lia.
Qed.

Lemma repeated_moves_reach_the_ends_witness :
  let s := fresh_session mockQuestions 0 in
  in_range s /\
  currentQuestion (Nat.iter 9 nextQuestion s) = 5 /\
  currentQuestion (Nat.iter 9 previousQuestion (Nat.iter 9 nextQuestion s)) = 0.
Proof.
  cbv zeta.
  assert (H : in_range (fresh_session mockQuestions 0))
    by (unfold in_range; simpl; lia).
  split; [exact H |].
  split; [| reflexivity].
  apply (proj1 (proj2 (proj2 (repeated_moves_reach_the_ends 9
                                (fresh_session mockQuestions 0) H)))).
  simpl. lia.
Defined.

(** ** Starting a session *)

Lemma In_take {A : Type} (x : A) (n : nat) (l : list A) :
  In x (take n l) -> In x l.
Proof.
  revert n. induction l as [|y l IH]; intros [|n]; simpl; try tauto.
  intros [H|H]; [now left | right; eauto].
Qed.

Lemma NoDup_take_prefix {A : Type} (n : nat) (l : list A) :
  NoDup l -> NoDup (take n l).
Proof.
  revert n. induction l as [|y l IH]; intros [|n] H; simpl; try constructor.
  - inversion H as [|? ? Hy Hl]; subst. intros Hin. apply Hy.
    apply list_elem_of_In. apply list_elem_of_In in Hin.
    eapply In_take. exact Hin.
  - inversion H; subst. now apply IH.
Qed.

(** X8. [startTest] does not look at the session it replaces: whatever was
    there, it returns normally with the same fresh session (cursor 0, the
    full hour, active, started now, every answer empty and unmarked), and
    it hands nothing to the backend. *)
Theorem startTest_discards_previous_session
    (sort_random : list Question.t -> list Question.t) (reply : SelectReply)
    (now : Z) (w1 w2 : World) :
  let s := testState (snd (startTest sort_random reply now w1)) in
  fst (startTest sort_random reply now w1) = inr tt /\
  s = testState (snd (startTest sort_random reply now w2)) /\
  inserts (snd (startTest sort_random reply now w1)) = inserts w1 /\
  currentQuestion s = 0 /\ timeRemaining s = 3600 /\ isActive s = true /\
  startTime s = Some now /\
  Forall (fun a => selectedAnswer a = None /\ marked a = false /\ timeSpent a = 0)
         (answers s).
Proof.
  cbv zeta. unfold startTest. rewrite !loadQuestions_run.
  cbn [fst snd testState inserts fresh_session currentQuestion timeRemaining
       isActive startTime answers].
  repeat split. unfold initialAnswers. apply Forall_forall. intros a Ha.
  apply list_elem_of_In, in_map_iff in Ha as (q & <- & _). repeat split.
Qed.

(** X9. When the remote read returns rows without an error, the session holds
    conversions of returned rows only, [min(6, number of rows)] of them,
    and no question twice if the rows have distinct ids. *)
Theorem startTest_uses_remote_rows
    (sort_random : list Question.t -> list Question.t)
    (rows : list QuestionRow.t) (now : Z) (w : World) :
  (forall l, Permutation l (sort_random l)) ->
  rows <> [] ->
  let s := testState (snd (startTest sort_random
                             (SelectResolves (Some rows) None) now w)) in
  (forall q, In q (questions s) -> exists row, In row rows /\ q = convert row) /\
  length (questions s) = Nat.min 6 (length rows) /\
  (NoDup (map QuestionRow.id rows) -> NoDup (map Question.id (questions s))).
Proof.
  intros Hperm Hrows. cbv zeta. unfold startTest. rewrite loadQuestions_run.
  cbn [snd testState fresh_session questions].
  replace (usable (Some rows) None) with true
    by (destruct rows; [congruence | reflexivity]).
  cbv zeta. change (default [] (Some rows)) with rows.
  pose proof (Hperm (map convert rows)) as Hp.
  pose proof (Permutation_length Hp) as Hl. rewrite length_map in Hl.
  split; [| split].
  - intros q Hq. apply In_take in Hq.
    apply (Permutation_in _ (Permutation_sym Hp)) in Hq.
    apply in_map_iff in Hq as (row & <- & Hrow). eauto.
  - rewrite length_take. lia.
  - intros Hnd. rewrite <- firstn_map. apply NoDup_take_prefix.
    rewrite <- (Permutation_map Question.id Hp), map_map.
    exact Hnd.
Qed.

Lemma startTest_uses_remote_rows_witness :
  let s := testState (snd (startTest (@rev Question.t)
                             (SelectResolves (Some [constructor_row]) None)
                             0 initialWorld)) in
  length (questions s) = 1%nat /\
  NoDup (map Question.id (questions s)).
Proof.
  cbv zeta.
  destruct (startTest_uses_remote_rows (@rev Question.t) [constructor_row] 0
              initialWorld (fun l => Permutation_rev l) ltac:(discriminate))
    as (_ & Hlen & Hnd).
  split; [exact Hlen |]. apply Hnd. repeat constructor. intros H. inversion H.
Defined.

(** X10. A row that passes the table's [CHECK (correct_answer BETWEEN 1 AND 4)]
    becomes a question with four options whose 0-based [correctAnswer]
    addresses the option the row designates. *)
Theorem convert_keeps_correct_option (row : QuestionRow.t) :
  correct_answer_check row ->
  let q := convert row in
  length (Question.options q) = 4%nat /\
  0 <= Question.correctAnswer q <= 3 /\
  Question.options q !! Z.to_nat (Question.correctAnswer q)
  = Some (if QuestionRow.correct_answer row =? 1 then QuestionRow.option_a row
          else if QuestionRow.correct_answer row =? 2 then QuestionRow.option_b row
          else if QuestionRow.correct_answer row =? 3 then QuestionRow.option_c row
          else QuestionRow.option_d row).
Proof.
  unfold correct_answer_check. destruct row as [i su qu a b c d n df].
  cbn [QuestionRow.correct_answer]. intros Hn. cbv zeta.
  cbn [convert Question.options Question.correctAnswer QuestionRow.option_a
       QuestionRow.option_b QuestionRow.option_c QuestionRow.option_d
       QuestionRow.correct_answer].
  split; [reflexivity |]. split; [lia |].
  assert (Hcases : n = 1 \/ n = 2 \/ n = 3 \/ n = 4) by lia.
  destruct Hcases as [-> | [-> | [-> | ->]]]; reflexivity.
Qed.

Lemma convert_keeps_correct_option_witness :
  Question.options (convert constructor_row)
    !! Z.to_nat (Question.correctAnswer (convert constructor_row))
  = Some "new".
Proof.
  apply (proj2 (proj2 (convert_keeps_correct_option constructor_row
                         ltac:(unfold correct_answer_check; simpl; lia)))).
Defined.

(** ** More on the scorer *)

Lemma tally_reads_selection_only (qs : list Question.t)
    (m : gmap string SubjectScore) (a a' : TestAnswer) (i : nat) :
  selectedAnswer a = selectedAnswer a' -> tally qs m a i = tally qs m a' i.
Proof. intros H. unfold tally. now rewrite H. Qed.

Lemma forEach_tally_selection (qs : list Question.t) (f : TestAnswer -> TestAnswer)
    (ans : list TestAnswer) (i : nat) (m : gmap string SubjectScore) :
  (forall a, selectedAnswer (f a) = selectedAnswer a) ->
  forEach_from (tally qs) i (map f ans) m = forEach_from (tally qs) i ans m.
Proof.
  intros Hf. revert i m. induction ans as [|a ans IH]; intros i m;
    [reflexivity |].
  cbn [map forEach_from]. rewrite IH.
  now rewrite (tally_reads_selection_only qs m (f a) a i (Hf a)).
Qed.

(** X11. Scores depend on the chosen options alone: marking a question for
    review, moving the cursor and ending the session change no tally, and
    the last three change no submission record either. *)
Theorem scores_ignore_marks_and_cursor (qid : string) (index : Z)
    (u : User.t) (now : Z) (s : TestState) :
  subjectScores (markForReview qid s) = subjectScores s /\
  map (fun r => (TestResult.subject r, TestResult.score r))
      (testResults u now (markForReview qid s))
  = map (fun r => (TestResult.subject r, TestResult.score r))
        (testResults u now s) /\
  testResults u now (navigateToQuestion index s) = testResults u now s /\
  testResults u now (nextQuestion s) = testResults u now s /\
  testResults u now (previousQuestion s) = testResults u now s /\
  testResults u now (endTest s) = testResults u now s.
Proof.
  assert (H : subjectScores (markForReview qid s) = subjectScores s).
  { unfold subjectScores.
    cbn [markForReview with_answers questions answers].
    apply forEach_tally_selection. intros a.
    now destruct (String.eqb (questionId a) qid). }
  split; [exact H |]. split; [| repeat split].
  unfold testResults. rewrite H, !map_map.
  apply map_ext. intros [subj sc]. reflexivity.
Qed.

Lemma count_correct_unanswered (subj : string) (qs : list Question.t)
    (ans : list TestAnswer) :
  Forall (fun a => selectedAnswer a = None) ans ->
  count_correct subj (zip qs ans) = 0.
Proof.
  intros H. revert qs. induction H as [|a ans Ha _ IH]; intros [|q qs];
    try reflexivity.
  cbn [zip zip_with]. rewrite count_correct_cons, IH.
  unfold answered_correctly. cbn [fst snd]. rewrite Ha. cbn [strict_eq].
  now rewrite andb_false_r.
Qed.

Lemma subjectScores_Some (s : TestState) (subj : string) (sc : SubjectScore) :
  subjectScores s !! subj = Some sc ->
  sc = {| correct := count_correct subj (zip (questions s) (answers s));
          total := count_total subj (zip (questions s) (answers s)) |} /\
  inherited subj = false /\
  0 < count_total subj (zip (questions s) (answers s)).
Proof.
  rewrite subjectScores_lookup. cbv zeta.
  destruct (inherited subj); [discriminate |].
  pose proof (count_correct_le_total subj (zip (questions s) (answers s))) as H.
  destruct (Z.eqb_spec (count_total subj (zip (questions s) (answers s))) 0);
    [discriminate |].
  intros [= <-]. repeat split. lia.
Qed.

(** X12. A session in which no option has been chosen scores 0 in every subject;
    so does a session submitted right after [startTest]. *)
Theorem unanswered_session_scores_zero (u : User.t) (now : Z) (s : TestState)
    (r : TestResult.t) :
  Forall (fun a => selectedAnswer a = None) (answers s) ->
  In r (testResults u now s) ->
  TestResult.score r = 0.
Proof.
  intros Hnull Hin. apply testResults_In in Hin as (sc & Hsc & ->).
  apply subjectScores_Some in Hsc as (-> & _ & Hpos).
  rewrite percentage_quotient by exact Hpos. cbn [correct total].
  rewrite (count_correct_unanswered _ _ _ Hnull).
  apply Z.div_small. lia.
Qed.

Lemma unanswered_session_scores_zero_witness :
  let s := testState (snd (startTest (@rev Question.t)
                             (SelectRejects (Error "Failed to fetch"))
                             0 initialWorld)) in
  testResults alice 5000 s <> [] /\
  TestResult.score (hd math_record (testResults alice 5000 s)) = 0.
Proof.
  cbv zeta. split; [vm_compute; discriminate |].
  apply (unanswered_session_scores_zero alice 5000
           (testState (snd (startTest (@rev Question.t)
                              (SelectRejects (Error "Failed to fetch"))
                              0 initialWorld)))).
  - simpl. repeat constructor.
  - vm_compute. left. reflexivity.
Defined.

Lemma count_correct_all (subj : string) (l : list (Question.t * TestAnswer)) :
  Forall (fun qa => answered_correctly qa = true) l ->
  count_correct subj l = count_total subj l.
Proof.
  induction 1 as [|qa l Hqa _ IH].
  - reflexivity.
  - rewrite count_correct_cons, count_total_cons, IH, Hqa.
    now rewrite andb_true_r.
Qed.

Lemma all_correct_scores_100 (u : User.t) (now : Z) (s : TestState)
    (r : TestResult.t) :
  Forall (fun qa => answered_correctly qa = true)
         (zip (questions s) (answers s)) ->
  In r (testResults u now s) ->
  TestResult.score r = 100.
Proof.
  intros Hall Hin. apply testResults_In in Hin as (sc & Hsc & ->).
  apply subjectScores_Some in Hsc as (-> & _ & Hpos).
  rewrite percentage_quotient by exact Hpos. cbn [correct total].
  rewrite (count_correct_all _ _ Hall).
  set (t := count_total _ _) in *.
  symmetry. apply Z.div_unique with (r := t); lia.
Qed.

(** The answers after one [selectAnswer] per question of [l]. *)
Lemma answer_each_answers (l : list Question.t) (s : TestState) :
  NoDup (map Question.id l) ->
  answers (foldl (fun st q => selectAnswer (Question.id q)
                                           (Question.correctAnswer q) st) s l)
  = map (fun a =>
           match List.find (fun q => String.eqb (questionId a) (Question.id q)) l with
           | Some q => {| questionId := questionId a;
                          selectedAnswer := Some (Question.correctAnswer q);
                          timeSpent := timeSpent a; marked := marked a |}
           | None => a
           end) (answers s)
  /\ questions (foldl (fun st q => selectAnswer (Question.id q)
                                                (Question.correctAnswer q) st) s l)
     = questions s.
Proof.
  revert s. induction l as [|q l IH]; intros s Hnd.
  - cbn [foldl List.find]. split; [| reflexivity].
    symmetry. apply map_unchanged. apply Forall_forall. reflexivity.
  - cbn [map] in Hnd. apply NoDup_cons in Hnd as [Hq Hnd].
    cbn [foldl]. destruct (IH (selectAnswer (Question.id q)
                                  (Question.correctAnswer q) s) Hnd) as [Ha Hqs].
    split; [| exact Hqs].
    rewrite Ha. cbn [selectAnswer with_answers answers]. rewrite map_map.
    apply map_ext. intros a. cbn [List.find].
    destruct (String.eqb_spec (questionId a) (Question.id q)) as [E|E].
    + cbn [questionId].
      destruct (List.find (fun q0 => String.eqb (questionId a) (Question.id q0)) l)
        as [q'|] eqn:F; [| reflexivity].
      exfalso. apply find_some in F as [Hin Heq].
      apply String.eqb_eq in Heq. apply Hq. rewrite <- E, Heq.
      apply list_elem_of_In, in_map. exact Hin.
    + reflexivity.
Qed.

Lemma find_by_id (qs : list Question.t) (i : nat) (q : Question.t) :
  NoDup (map Question.id qs) -> qs !! i = Some q ->
  List.find (fun q0 => String.eqb (Question.id q) (Question.id q0)) qs = Some q.
Proof.
  revert i. induction qs as [|q0 qs IH]; intros i Hnd Hq; [destruct i; discriminate |].
  cbn [map] in Hnd. apply NoDup_cons in Hnd as [Hq0 Hnd]. cbn [List.find].
  destruct i as [|i]; cbn in Hq.
  - injection Hq as ->. now rewrite String.eqb_refl.
  - destruct (String.eqb_spec (Question.id q) (Question.id q0)) as [E|E].
    + exfalso. apply Hq0. rewrite <- E.
      apply list_elem_of_In, in_map, list_elem_of_In.
      eapply list_elem_of_lookup_2. exact Hq.
    + eapply IH; eassumption.
Qed.

(** X13. End to end: in an aligned session whose questions have distinct ids,
    choosing the correct option of every question, one [selectAnswer] call
    per question, makes every submission record score 100. *)
Theorem answering_all_correctly_scores_100 (u : User.t) (now : Z)
    (s : TestState) (r : TestResult.t) :
  aligned s ->
  NoDup (map Question.id (questions s)) ->
  In r (testResults u now (answer_all_correctly s)) ->
  TestResult.score r = 100.
Proof.
  intros Hal Hnd. apply all_correct_scores_100.
  unfold answer_all_correctly.
  destruct (answer_each_answers (questions s) s Hnd) as [-> ->].
  destruct Hal as [Hlen Hid].
  apply Forall_forall. intros [q a'] Hin.
  apply list_elem_of_lookup_1 in Hin as [i Hi].
  apply lookup_zip_with_Some in Hi as (q0 & a0 & [= -> ->] & Hq & Ha).
  rewrite list_lookup_fmap in Ha.
  destruct (answers s !! i) as [a|] eqn:Hai; [| discriminate Ha].
  cbn in Ha. injection Ha as <-.
  rewrite (Hid i q0 a Hq Hai), (find_by_id _ i q0 Hnd Hq).
  unfold answered_correctly. cbn [fst snd selectedAnswer strict_eq].
  apply Z.eqb_refl.
Qed.

Lemma answering_all_correctly_scores_100_witness :
  let s := answer_all_correctly (fresh_session mockQuestions 0) in
  testResults alice 5000 s <> [] /\
  TestResult.score (hd math_record (testResults alice 5000 s)) = 100.
Proof.
  cbv zeta. split; [vm_compute; discriminate |].
  apply (answering_all_correctly_scores_100 alice 5000
           (fresh_session mockQuestions 0)).
  - apply aligned_fresh_session.
  - simpl. repeat constructor; vm_compute; intros H;
      repeat (apply elem_of_cons in H as [H|H]; [discriminate H |]);
      inversion H.
  - vm_compute. left. reflexivity.
Defined.

(** ** More on the submission records *)

Lemma testResults_In_fields (u : User.t) (now : Z) (s : TestState)
    (r : TestResult.t) :
  In r (testResults u now s) ->
  TestResult.email r = User.email u /\
  TestResult.test_time r = startTime s /\
  TestResult.duration_seconds r = duration now s /\
  TestResult.questions r
  = List.filter (fun q => String.eqb (Question.subject q) (TestResult.subject r))
                (questions s) /\
  TestResult.answers r
  = filter_index_from
      (fun _ index => subject_at (questions s) (TestResult.subject r) index)
      0%nat (answers s).
Proof.
  unfold testResults. rewrite in_map_iff. intros ([subj sc] & <- & _).
  repeat split.
Qed.

Lemma count_total_pos_question (subj : string) (qs : list Question.t)
    (ans : list TestAnswer) :
  0 < count_total subj (zip qs ans) ->
  exists q, In q qs /\ Question.subject q = subj.
Proof.
  revert ans. induction qs as [|q qs IH]; intros [|a ans]; cbn [zip zip_with];
    try (unfold count_total; simpl; lia).
  rewrite count_total_cons. unfold of_subject. cbn [fst].
  destruct (String.eqb_spec (Question.subject q) subj) as [E|E].
  - intros _. exists q. split; [now left | exact E].
  - intros H. destruct (IH ans) as (q' & Hin & Hq'); [lia |].
    exists q'. split; [now right | exact Hq'].
Qed.

Lemma record_has_question (u : User.t) (now : Z) (s : TestState)
    (r : TestResult.t) :
  In r (testResults u now s) ->
  exists q, In q (questions s) /\ Question.subject q = TestResult.subject r.
Proof.
  intros Hin. apply testResults_In in Hin as (sc & Hsc & _).
  apply subjectScores_Some in Hsc as (_ & _ & Hpos).
  eapply count_total_pos_question. exact Hpos.
Qed.

(** X14. [submitTest] builds at most one record per subject, and only for
    subjects that some question of the session carries. *)
Theorem one_record_per_subject (u : User.t) (now : Z) (s : TestState) :
  NoDup (map TestResult.subject (testResults u now s)) /\
  forall r, In r (testResults u now s) ->
    exists q, In q (questions s) /\ Question.subject q = TestResult.subject r.
Proof.
  split.
  - unfold testResults. rewrite map_map.
    pose proof (NoDup_fst_map_to_list (subjectScores s)) as Hnd.
    replace (map _ (map_to_list (subjectScores s)))
      with ((map_to_list (subjectScores s)).*1); [exact Hnd |].
    apply map_ext. now intros [subj sc].
  - apply record_has_question.
Qed.

Lemma one_record_per_subject_witness :
  map TestResult.subject (testResults alice 0 scorer_example) = ["Math"] /\
  exists q, In q (questions scorer_example) /\
            Question.subject q = TestResult.subject math_record.
Proof.
  split; [vm_compute; reflexivity |].
  apply (proj2 (one_record_per_subject alice 0 scorer_example) math_record).
  vm_compute. left. reflexivity.
Defined.

Lemma filter_index_zip (subj : string) (qs : list Question.t)
    (ans : list TestAnswer) (i : nat) :
  filter_index_from (fun _ index => subject_at qs subj index) i ans
  = map snd (List.filter (of_subject subj) (zip (drop i qs) ans)).
Proof.
  revert i. induction ans as [|a ans IH]; intros i.
  - cbn. now destruct (drop i qs).
  - cbn [filter_index_from]. unfold subject_at at 1.
    destruct (qs !! i) as [q|] eqn:Hq.
    + rewrite (drop_S _ _ _ Hq). cbn [zip zip_with List.filter].
      rewrite IH.
      change (of_subject subj (q, a))
        with (String.eqb (Question.subject q) subj).
      now destruct (String.eqb (Question.subject q) subj).
    + rewrite IH. apply lookup_ge_None in Hq.
      rewrite !drop_ge by lia. reflexivity.
Qed.

Lemma filter_questions_zip (subj : string) (qs : list Question.t)
    (ans : list TestAnswer) :
  length ans = length qs ->
  List.filter (fun q => String.eqb (Question.subject q) subj) qs
  = map fst (List.filter (of_subject subj) (zip qs ans)).
Proof.
  revert ans. induction qs as [|q qs IH]; intros [|a ans] Hlen;
    try discriminate Hlen; [reflexivity |].
  injection Hlen as Hlen. cbn [zip zip_with List.filter].
  rewrite (IH ans Hlen).
  change (of_subject subj (q, a))
    with (String.eqb (Question.subject q) subj).
  now destruct (String.eqb (Question.subject q) subj).
Qed.

Lemma aligned_zip (s : TestState) :
  aligned s ->
  Forall (fun qa => questionId (snd qa) = Question.id (fst qa))
         (zip (questions s) (answers s)).
Proof.
  intros [_ Hid]. apply Forall_forall. intros [q a] Hin.
  apply list_elem_of_lookup_1 in Hin as [i Hi].
  apply lookup_zip_with_Some in Hi as (q0 & a0 & [= -> ->] & Hq & Ha).
  exact (Hid i q0 a0 Hq Ha).
Qed.

(** X15. In an aligned session the two snapshots of a record match: its
    questions are the session's questions of its subject, in order, there
    is at least one, and its answers are the answer records at the same
    positions, so [answers[i].questionId] is [questions[i].id] inside the
    record too. *)
Theorem record_snapshots_stay_aligned (u : User.t) (now : Z) (s : TestState)
    (r : TestResult.t) :
  aligned s ->
  In r (testResults u now s) ->
  TestResult.questions r
  = List.filter (fun q => String.eqb (Question.subject q) (TestResult.subject r))
                (questions s) /\
  TestResult.questions r <> [] /\
  map questionId (TestResult.answers r)
  = map Question.id (TestResult.questions r) /\
  forall a, In a (TestResult.answers r) -> In a (answers s).
Proof.
  intros Hal Hin.
  destruct (testResults_In_fields u now s r Hin) as (_ & _ & _ & Hq & Ha).
  apply testResults_In in Hin as (sc & Hsc & _).
  apply subjectScores_Some in Hsc as (_ & _ & Hpos).
  pose proof (aligned_zip s Hal) as Hz. destruct Hal as [Hlen _].
  rewrite Ha, Hq, filter_index_zip, drop_0,
    (filter_questions_zip _ _ _ Hlen).
  unfold count_total in Hpos.
  set (l := zip (questions s) (answers s)) in *.
  assert (Hin_l : forall a, In a (map snd l) -> In a (answers s)).
  { subst l. intros a H. apply in_map_iff in H as ([q a'] & <- & H).
    apply (proj2 (list_elem_of_In _ _)) in H.
    apply list_elem_of_lookup_1 in H as [i Hi].
    apply lookup_zip_with_Some in Hi as (q0 & a0 & [= -> ->] & _ & Ha0).
    apply list_elem_of_In. eapply list_elem_of_lookup_2. exact Ha0. }
  clearbody l. repeat split.
  - destruct (List.filter (of_subject (TestResult.subject r)) l);
      [simpl in Hpos; lia | discriminate].
  - clear Hpos Hin_l. induction Hz as [|qa l Hqa _ IH]; [reflexivity |].
    cbn [List.filter]. destruct (of_subject (TestResult.subject r) qa);
      [cbn [map]; now rewrite Hqa, IH | exact IH].
  - intros a H. apply Hin_l. apply in_map_iff in H as (qa & <- & H).
    apply in_map. apply filter_In in H. tauto.
Qed.

Lemma record_snapshots_stay_aligned_witness :
  map questionId (TestResult.answers math_record)
  = map Question.id (TestResult.questions math_record).
Proof.
  apply (record_snapshots_stay_aligned alice 0 scorer_example math_record).
  - apply aligned_iff_ids. reflexivity.
  - vm_compute. left. reflexivity.
Defined.

(** X16. Every record of a submission carries the submitter's email, the
    session's start time and one common duration: the whole seconds from
    the start to now (0 without a start time, never negative once the clock
    has passed the start). *)
Theorem records_share_submission_fields (u : User.t) (now : Z) (s : TestState)
    (r : TestResult.t) :
  In r (testResults u now s) ->
  TestResult.email r = User.email u /\
  TestResult.test_time r = startTime s /\
  TestResult.duration_seconds r = duration now s /\
  (startTime s = None -> TestResult.duration_seconds r = 0) /\
  (forall t0, startTime s = Some t0 ->
     1000 * TestResult.duration_seconds r <= now - t0
       < 1000 * TestResult.duration_seconds r + 1000 /\
     (t0 <= now -> 0 <= TestResult.duration_seconds r)).
Proof.
  intros Hin.
  destruct (testResults_In_fields u now s r Hin) as (He & Ht & Hd & _).
  split; [exact He |]. split; [exact Ht |]. split; [exact Hd |].
  rewrite Hd. unfold duration. split.
  - now intros ->.
  - intros t0 ->.
    pose proof (Z.mul_div_le (now - t0) 1000).
    pose proof (Z.mul_succ_div_gt (now - t0) 1000).
    split; [lia |]. intros Hle. apply Z.div_pos; lia.
Qed.

Lemma records_share_submission_fields_witness :
  TestResult.email math_record = "alice@example.org" /\
  TestResult.duration_seconds math_record = 0.
Proof.
  destruct (records_share_submission_fields alice 0 scorer_example math_record)
    as (He & _ & _ & Hd & _).
  - vm_compute. left. reflexivity.
  - split; [exact He | apply Hd; reflexivity].
Defined.

(** ** Sessions over time *)

Lemma perform_started (c : Call) (w : World) :
  (questions (testState w) = [] \/ is_Some (startTime (testState w))) ->
  questions (testState (snd (perform c w))) = [] \/
  is_Some (startTime (testState (snd (perform c w)))).
Proof.
  intros Hw. destruct c; unfold perform, startTest; try exact Hw.
  - rewrite loadQuestions_run. right. cbn. eauto.
  - destruct (submitTest_state user reply now w) as [-> | ->]; exact Hw.
Qed.

Lemma run_started (cs : list Call) (w : World) :
  (questions (testState w) = [] \/ is_Some (startTime (testState w))) ->
  questions (testState (run cs w)) = [] \/
  is_Some (startTime (testState (run cs w))).
Proof.
  revert w. induction cs as [|c cs IH]; intros w Hw; [exact Hw |].
  apply IH. now apply perform_started.
Qed.

(** X17. Whatever the calls so far, a record built from the session has a
    [test_time]: questions only come with a start time, and without
    questions there is no record.  The [NOT NULL] of the column is met. *)
Theorem records_have_a_test_time (cs : list Call) (u : User.t) (now : Z)
    (r : TestResult.t) :
  In r (testResults u now (testState (run cs initialWorld))) ->
  is_Some (TestResult.test_time r).
Proof.
  intros Hin.
  destruct (testResults_In_fields _ _ _ _ Hin) as (_ & -> & _).
  destruct (record_has_question _ _ _ _ Hin) as (q & Hq & _).
  destruct (run_started cs initialWorld (or_introl eq_refl)) as [E | E];
    [| exact E].
  rewrite E in Hq. destruct Hq.
Qed.

Lemma records_have_a_test_time_witness :
  let cs := [CallStartTest (@rev Question.t)
               (SelectRejects (Error "Failed to fetch")) 42] in
  let rs := testResults alice 5000 (testState (run cs initialWorld)) in
  rs <> [] /\ TestResult.test_time (hd math_record rs) = Some 42.
Proof.
  cbv zeta. split; [vm_compute; discriminate |].
  destruct (records_have_a_test_time
              [CallStartTest (@rev Question.t)
                 (SelectRejects (Error "Failed to fetch")) 42]
              alice 5000
              (hd math_record
                  (testResults alice 5000
                     (testState (run [CallStartTest (@rev Question.t)
                                        (SelectRejects (Error "Failed to fetch")) 42]
                                     initialWorld)))))
    as [t Ht].
  - vm_compute. left. reflexivity.
  - reflexivity.
Defined.

(** X18. No session ever holds more than six questions, whatever the remote
    store returns and however often it is restarted. *)
Theorem sessions_hold_at_most_six_questions (cs : list Call) :
  (length (questions (testState (run cs initialWorld))) <= 6)%nat /\
  (length (answers (testState (run cs initialWorld))) <= 6)%nat.
Proof.
  pose proof (run_session_size cs) as H.
  pose proof (run_aligned cs initialWorld) as [Hlen _].
  { apply aligned_iff_ids. reflexivity. }
  split; [exact H | lia].
Qed.

(** X19. In every session the program can be in, the score JavaScript computes
    on doubles, [Math.round((correct / total) * 100)], is the exactly
    rounded percentage: the rounding error of the quotient never moves the
    result across a half. *)
Theorem double_arithmetic_gives_the_exact_score (cs : list Call) (subj : string)
    (sc : SubjectScore) :
  subjectScores (testState (run cs initialWorld)) !! subj = Some sc ->
  Binary64.percentage sc = Some (percentage sc) /\
  is_rounded_percentage (correct sc) (total sc) (percentage sc).
Proof.
  intros H. split; [exact (run_binary64_percentage cs subj sc H) |].
  apply percentage_rounds. now apply subjectScores_entry in H.
Qed.

Lemma double_arithmetic_gives_the_exact_score_witness :
  let cs := [CallStartTest (@rev Question.t)
               (SelectRejects (Error "Failed to fetch")) 0;
             CallSelectAnswer "math_1" 0] in
  subjectScores (testState (run cs initialWorld)) !! "Math"
  = Some {| correct := 1; total := 2 |} /\
  Binary64.percentage {| correct := 1; total := 2 |} = Some 50.
Proof.
  cbv zeta.
  assert (H : subjectScores
                (testState (run [CallStartTest (@rev Question.t)
                                   (SelectRejects (Error "Failed to fetch")) 0;
                                 CallSelectAnswer "math_1" 0] initialWorld))
              !! "Math" = Some {| correct := 1; total := 2 |})
    by (vm_compute; reflexivity).
  split; [exact H |].
  rewrite (proj1 (double_arithmetic_gives_the_exact_score _ _ _ H)).
  vm_compute. reflexivity.
Defined.

(** ** More on the percentage *)

(** X20. For a subject with questions, one more correct answer never lowers the
    score; all correct gives 100 and none correct gives 0. *)
Theorem percentage_monotone (c1 c2 t : Z) :
  0 < t -> 0 <= c1 <= c2 ->
  percentage {| correct := c1; total := t |}
    <= percentage {| correct := c2; total := t |} /\
  percentage {| correct := t; total := t |} = 100 /\
  percentage {| correct := 0; total := t |} = 0.
Proof.
  intros Ht Hc. rewrite !percentage_quotient by exact Ht. cbn [correct total].
  split; [apply Z.div_le_mono; lia |]. split.
  - symmetry. apply Z.div_unique with (r := t); lia.
  - apply Z.div_small. lia.
Qed.

Lemma percentage_monotone_witness :
  percentage {| correct := 1; total := 6 |}
    <= percentage {| correct := 2; total := 6 |} /\
  percentage {| correct := 1; total := 6 |} = 17 /\
  percentage {| correct := 2; total := 6 |} = 33.
Proof.
  split; [| split; vm_compute; reflexivity].
  apply (proj1 (percentage_monotone 1 2 6 ltac:(lia) ltac:(lia))).
Defined.

(** ** More on submission *)

(** X21. [submitTest] does not look at [isActive] either: after a successful
    submission a second one, at the same clock reading, hands the backend
    the same batch again and leaves the session ended; and after a failed
    one the retry sends what the first attempt sent. *)
Theorem resubmission_sends_the_same_batch (u : User.t) (first second : InsertReply)
    (now : Z) (w : World) :
  let rows := testResults u now (testState w) in
  let w1 := snd (submitTest (Some u) first now w) in
  let w2 := snd (submitTest (Some u) second now w1) in
  inserts w2 = rows :: rows :: inserts w /\
  (insert_failure first = None -> isActive (testState w2) = false) /\
  (insert_failure first <> None -> insert_failure second <> None ->
     testState w2 = testState w).
Proof.
  cbv zeta. rewrite (submitTest_run u first now w). cbv zeta.
  destruct (insert_failure first) as [e1|]; cbn [snd];
    rewrite submitTest_run; cbv zeta; cbn [testState inserts];
    destruct (insert_failure second) as [e2|]; cbn [snd testState inserts];
    repeat split; try congruence.
Qed.

Lemma resubmission_sends_the_same_batch_witness :
  let w := {| testState := fresh_session mockQuestions 0; inserts := [] |} in
  let w1 := snd (submitTest (Some alice) (InsertResolves None) 5000 w) in
  let w2 := snd (submitTest (Some alice) (InsertResolves None) 5000 w1) in
  length (inserts w2) = 2%nat /\ isActive (testState w2) = false.
Proof.
  cbv zeta.
  destruct (resubmission_sends_the_same_batch alice (InsertResolves None)
              (InsertResolves None) 5000
              {| testState := fresh_session mockQuestions 0; inserts := [] |})
    as (Hins & Hact & _).
  split; [rewrite Hins; reflexivity | apply Hact; reflexivity].
Defined.

(** The earlier mock submission ends the session for anybody: it returns
    normally, makes the session inactive and hands nothing to the backend,
    also where [submitTest] refuses for want of a user. *)
Theorem submitTestOld_ends_without_backend (reply : InsertReply) (now : Z)
    (w : World) :
  fst (submitTestOld w) = inr tt /\
  testState (snd (submitTestOld w)) = endTest (testState w) /\
  inserts (snd (submitTestOld w)) = inserts w /\
  fst (submitTest None reply now w) <> fst (submitTestOld w).
Proof. repeat split. discriminate. Qed.

Lemma perform_inserts (c : Call) (w : World) :
  inserts (snd (perform c w))
  = match c with
    | CallSubmitTest (Some u) _ now =>
        testResults u now (testState w) :: inserts w
    | _ => inserts w
    end.
Proof.
  destruct c; unfold perform, startTest; try reflexivity.
  - now rewrite loadQuestions_run.
  - destruct user as [u|]; [| reflexivity].
    rewrite submitTest_run. cbv zeta. now destruct (insert_failure reply).
Qed.

Lemma run_inserts (cs : list Call) (w : World) (acc : list User.t) :
  length (inserts w) = length acc ->
  Forall2 (fun batch u => Forall (fun r => TestResult.email r = User.email u) batch)
          (inserts w) acc ->
  length (inserts (run cs w)) = length (submitters cs acc) /\
  Forall2 (fun batch u => Forall (fun r => TestResult.email r = User.email u) batch)
          (inserts (run cs w)) (submitters cs acc).
Proof.
  revert w acc. induction cs as [|c cs IH]; intros w acc Hlen Hall;
    [split; assumption |].
  change (run (c :: cs) w) with (run cs (snd (perform c w))).
  assert (Hstep : forall acc',
            submitters (c :: cs) acc = submitters cs acc' ->
            length (inserts (snd (perform c w))) = length acc' ->
            Forall2 (fun batch u =>
                       Forall (fun r => TestResult.email r = User.email u) batch)
                    (inserts (snd (perform c w))) acc' ->
            length (inserts (run cs (snd (perform c w))))
              = length (submitters (c :: cs) acc) /\
            Forall2 (fun batch u =>
                       Forall (fun r => TestResult.email r = User.email u) batch)
                    (inserts (run cs (snd (perform c w))))
                    (submitters (c :: cs) acc)).
  { intros acc' -> H1 H2. now apply IH. }
  rewrite perform_inserts in Hstep.
  destruct c as [| | | | | | | [u|] reply now];
    try (apply (Hstep acc); [reflexivity | assumption | assumption]).
  apply (Hstep (u :: acc)); [reflexivity | simpl; lia |].
  constructor; [| exact Hall].
  apply Forall_forall. intros r Hr. apply list_elem_of_In in Hr.
  now apply testResults_In_fields in Hr as (He & _).
Qed.

(** X22. Over any run of calls the backend is handed exactly one batch per
    [submitTest] made with a user, in order, and every record of a batch
    carries the email of the user who made that call; calls without a user
    and all other operations hand it nothing. *)
Theorem batches_match_the_submitters (cs : list Call) :
  length (inserts (run cs initialWorld)) = length (submitters cs []) /\
  Forall2 (fun batch u => Forall (fun r => TestResult.email r = User.email u) batch)
          (inserts (run cs initialWorld)) (submitters cs []).
Proof. apply run_inserts; [reflexivity | constructor]. Qed.

Lemma zip_surplus_answers (qs : list Question.t) (ans extra : list TestAnswer) :
  (length qs <= length ans)%nat -> zip qs (ans ++ extra) = zip qs ans.
Proof.
  revert ans. induction qs as [|q qs IH]; intros [|a ans] H; simpl in *;
    try reflexivity; try lia.
  f_equal. apply IH. lia.
Qed.

Lemma zip_surplus_questions (qs extra : list Question.t) (ans : list TestAnswer) :
  (length ans <= length qs)%nat -> zip (qs ++ extra) ans = zip qs ans.
Proof.
  revert ans. induction qs as [|q qs IH]; intros [|a ans] H; simpl in *;
    try reflexivity; try lia.
  - now destruct extra.
  - f_equal. apply IH. lia.
Qed.

(** X23. The scorer pairs answers and questions by index and skips what has no
    partner: answer records beyond the last question, and questions beyond
    the last answer record, change no tally. *)
Theorem scorer_skips_unpaired_positions (s : TestState)
    (more_answers : list TestAnswer) (more_questions : list Question.t) :
  length (answers s) = length (questions s) ->
  subjectScores (with_answers s (answers s ++ more_answers)) = subjectScores s /\
  subjectScores {| questions := questions s ++ more_questions;
                   answers := answers s;
                   currentQuestion := currentQuestion s;
                   timeRemaining := timeRemaining s;
                   isActive := isActive s; startTime := startTime s |}
  = subjectScores s.
Proof.
  intros Hlen. unfold subjectScores.
  cbn [with_answers questions answers].
  rewrite !forEach_tally_zip, !drop_0.
  rewrite zip_surplus_answers, zip_surplus_questions by lia.
  split; reflexivity.
Qed.

Lemma scorer_skips_unpaired_positions_witness :
  subjectScores (with_answers scorer_example
                   (answers scorer_example
                    ++ [mkTestAnswer "q3" (Some 1) 0 false]))
  = subjectScores scorer_example.
Proof.
  apply (proj1 (scorer_skips_unpaired_positions scorer_example
                  [mkTestAnswer "q3" (Some 1) 0 false] [] eq_refl)).
Defined.

(** * The authentication contexts *)

(** ** The provider backed by the identity service *)


Lemma email_or_empty (o : option string) :
  default "" (Auth.js_or o (Some "")) = default "" o.
Proof.
  unfold Auth.js_or, Auth.truthy. destruct o as [s|]; [| reflexivity].
  now destruct (String.eqb_spec s "") as [-> |].
Qed.


(** X25. The registration lookup answers [true] exactly when the query resolves
    with a row and either no error or the "no rows" code [PGRST116]; any
    other error, and a rejected query, count as not registered.  So a user
    marked registered locally is shown as unregistered again when a later
    session event's lookup fails. *)
Theorem checkRegistrationStatus_true_iff (email : string)
    (reply : Auth.RegistrationReply) :
  (Auth.checkRegistrationStatus email reply = true <->
   exists row error,
     reply = Auth.RegistrationResolves (Some row) error /\
     (error = None \/ exists e, error = Some e /\ Auth.code e = "PGRST116")) /\
  forall su w,
    Auth.checkRegistrationStatus (default "" (Auth.email su)) reply = false ->
    User.isRegistered
      <$> Auth.user (Auth.authStateChange (Some su) reply
                       (Auth.setUserRegistered w))
    = Some (Some false).
Proof.
  split.
  - unfold Auth.checkRegistrationStatus. split.
    + destruct reply as [|data error]; [discriminate |].
      destruct error as [e|].
      * destruct (String.eqb_spec (Auth.code e) "PGRST116") as [E|E];
          cbn [negb]; [| discriminate].
        destruct data as [row|]; [| intros H; now apply bool_decide_eq_true in H as [? ?]].
        intros _. exists row, (Some e). split; [reflexivity |]. right. eauto.
      * destruct data as [row|]; [| intros H; now apply bool_decide_eq_true in H as [? ?]].
        intros _. exists row, None. split; [reflexivity |]. now left.
    + intros (row & error & -> & [-> | (e & -> & He)]).
      * first [reflexivity | apply bool_decide_eq_true; eauto].
      * rewrite He. cbn. first [reflexivity | apply bool_decide_eq_true; eauto].
  - intros su w H.
    cbn [Auth.authStateChange Auth.user]. unfold Auth.handleUserSession.
    cbn [Auth.user fmap option_fmap option_map User.isRegistered].
    rewrite email_or_empty, H. reflexivity.
Qed.

Lemma checkRegistrationStatus_true_iff_witness :
  let su := Auth.mkSupabaseUser "7c0e" (Some "alice@example.org") None in
  User.isRegistered
    <$> Auth.user (Auth.authStateChange (Some su) Auth.RegistrationRejects
                     (Auth.setUserRegistered Auth.initialWorld))
  = Some (Some false).
Proof.
  cbv zeta.
  apply (proj2 (checkRegistrationStatus_true_iff "alice@example.org"
                  Auth.RegistrationRejects)).
  reflexivity.
Defined.

(** X26. [logout] never throws.  When [signOut] resolves, with or without an
    error, the user is cleared, the stored copy is removed (other
    [localStorage] keys stay) and [sessionStorage] is emptied; when
    [signOut] rejects, nothing is cleared: the user stays signed in
    locally. *)
Theorem logout_clears_unless_signOut_rejects (reply : Auth.AuthReply)
    (w : Auth.World) :
  fst (Auth.logout reply w) = inr tt /\
  (forall error, reply = Auth.AuthResolves error ->
     Auth.user (snd (Auth.logout reply w)) = None /\
     Auth.localStorage (snd (Auth.logout reply w)) !! "user" = None /\
     (forall key, key <> "user" ->
        Auth.localStorage (snd (Auth.logout reply w)) !! key
        = Auth.localStorage w !! key) /\
     Auth.sessionStorage (snd (Auth.logout reply w)) = ∅) /\
  (forall e, reply = Auth.AuthRejects e -> snd (Auth.logout reply w) = w).
Proof.
  split; [now destruct reply |]. split.
  - intros error ->. cbn. split; [reflexivity |].
    split; [apply lookup_delete_eq |]. split; [| reflexivity].
    intros key Hkey. apply lookup_delete_ne. congruence.
  - now intros e ->.
Qed.

Lemma logout_clears_unless_signOut_rejects_witness :
  let su := Auth.mkSupabaseUser "7c0e" (Some "alice@example.org") None in
  let w := Auth.handleUserSession su Auth.RegistrationRejects Auth.initialWorld in
  Auth.user (snd (Auth.logout (Auth.AuthResolves None) w)) = None /\
  Auth.user (snd (Auth.logout (Auth.AuthRejects (Error "offline")) w))
  = Auth.user w.
Proof.
  cbv zeta. split.
  - apply (proj1 (proj2 (logout_clears_unless_signOut_rejects
                           (Auth.AuthResolves None) _)) None eq_refl).
  - now rewrite (proj2 (proj2 (logout_clears_unless_signOut_rejects
                                 (Auth.AuthRejects (Error "offline")) _))
                       (Error "offline") eq_refl).
Defined.

(** X27. [setUserRegistered] does nothing without a user; with one it sets the
    flag and nothing else on the user, stores that user and raises the
    session flag; doing it twice is doing it once. *)
Theorem setUserRegistered_marks_the_user (w : Auth.World) :
  (Auth.user w = None -> Auth.setUserRegistered w = w) /\
  (forall u, Auth.user w = Some u ->
     exists u',
       Auth.user (Auth.setUserRegistered w) = Some u' /\
       User.isRegistered u' = Some true /\
       User.id u' = User.id u /\ User.email u' = User.email u /\
       User.name u' = User.name u /\ User.picture u' = User.picture u /\
       Auth.localStorage (Auth.setUserRegistered w) !! "user"
       = Some (Auth.JSON_user u') /\
       Auth.sessionStorage (Auth.setUserRegistered w) !! "isRegistered"
       = Some (Auth.Text "true")) /\
  Auth.setUserRegistered (Auth.setUserRegistered w) = Auth.setUserRegistered w.
Proof.
  unfold Auth.setUserRegistered. split; [| split].
  - now intros ->.
  - intros u ->. eexists. split; [reflexivity |].
    cbn. repeat split; apply lookup_insert_eq.
  - destruct (Auth.user w) as [u|] eqn:E; [| now rewrite E].
    cbn. f_equal; apply insert_insert_eq.
Qed.

Lemma setUserRegistered_marks_the_user_witness :
  Auth.setUserRegistered Auth.initialWorld = Auth.initialWorld.
Proof.
  apply (proj1 (setUserRegistered_marks_the_user Auth.initialWorld)).
  reflexivity.
Defined.

Lemma auth_handle_stored (e : Auth.Event) (w : Auth.World) :
  (forall u, Auth.user w = Some u ->
     Auth.localStorage w !! "user" = Some (Auth.JSON_user u)) ->
  forall u, Auth.user (Auth.handle e w) = Some u ->
    Auth.localStorage (Auth.handle e w) !! "user" = Some (Auth.JSON_user u).
Proof.
  intros Hw u. destruct e as [session reply | session reply | reply | reply |];
    cbn [Auth.handle].
  - destruct session as [su|]; cbn.
    + intros [= <-]. apply lookup_insert_eq.
    + apply Hw.
  - destruct session as [su|]; cbn.
    + intros [= <-]. apply lookup_insert_eq.
    + discriminate.
  - destruct reply as [e | [e|]]; cbn; apply Hw.
  - destruct reply as [e | error]; cbn; [apply Hw | discriminate].
  - unfold Auth.setUserRegistered. destruct (Auth.user w) as [u0|] eqn:E.
    + cbn. intros [= <-]. apply lookup_insert_eq.
    + rewrite E. discriminate.
Qed.

(** X28. Whatever happens to the provider, a signed-in user is the user stored
    in [localStorage].  The converse fails: a sign-out reported by the
    identity service clears the user and leaves the stored copy behind. *)
Theorem signed_in_user_is_the_stored_one (es : list Auth.Event)
    (w0 : Auth.World) :
  Auth.user w0 = None ->
  (forall u, Auth.user (Auth.run es w0) = Some u ->
     Auth.localStorage (Auth.run es w0) !! "user" = Some (Auth.JSON_user u)) /\
  (forall su reply reply',
     let w := Auth.authStateChange None reply'
                (Auth.authStateChange (Some su) reply (Auth.run es w0)) in
     Auth.user w = None /\ is_Some (Auth.localStorage w !! "user")).
Proof.
  intros H0. split.
  - assert (H : forall w, (forall u, Auth.user w = Some u ->
                  Auth.localStorage w !! "user" = Some (Auth.JSON_user u)) ->
                forall u, Auth.user (Auth.run es w) = Some u ->
                  Auth.localStorage (Auth.run es w) !! "user"
                  = Some (Auth.JSON_user u)).
    { induction es as [|e es IH]; intros w Hw; [exact Hw |].
      apply IH. now apply auth_handle_stored. }
    apply H. intros u Hu. congruence.
  - intros su reply reply'. cbn. split; [reflexivity |].
    rewrite lookup_insert_eq. eauto.
Qed.

Lemma signed_in_user_is_the_stored_one_witness :
  let su := Auth.mkSupabaseUser "7c0e" (Some "alice@example.org") None in
  let w := Auth.run [Auth.EvGetSession (Some su) Auth.RegistrationRejects;
                     Auth.EvSetUserRegistered] Auth.initialWorld in
  exists u, Auth.user w = Some u /\
            Auth.localStorage w !! "user" = Some (Auth.JSON_user u) /\
            User.isRegistered u = Some true.
Proof.
  cbv zeta. eexists. split; [reflexivity |]. split; [| reflexivity].
  apply (proj1 (signed_in_user_is_the_stored_one
                  [Auth.EvGetSession
                     (Some (Auth.mkSupabaseUser "7c0e" (Some "alice@example.org") None))
                     Auth.RegistrationRejects;
                   Auth.EvSetUserRegistered] Auth.initialWorld eq_refl)).
  reflexivity.
Defined.

(** ** The mock provider *)

(** X29. The registration check at the end of the mock [login] reads the user
    of before the call.  From signed out, [login] installs the made-up user
    as unregistered even when the session flag says registered; over a
    signed-in user with the flag raised, it ends with that earlier user,
    marked registered, and the made-up one is gone.  Users made up at
    different instants have different ids. *)
Theorem mock_login_checks_the_previous_user (now : Z) (w : Auth.World) :
  (Auth.user w = None ->
     Auth.user (MockAuth.login now w) = Some (MockAuth.mockUser now) /\
     Auth.localStorage (MockAuth.login now w) !! "user"
     = Some (Auth.JSON_user (MockAuth.mockUser now)) /\
     User.isRegistered (MockAuth.mockUser now) = Some false) /\
  (forall u0, Auth.user w = Some u0 ->
     Auth.sessionStorage w !! "isRegistered" = Some (Auth.Text "true") ->
     exists u',
       Auth.user (MockAuth.login now w) = Some u' /\
       Auth.localStorage (MockAuth.login now w) !! "user"
       = Some (Auth.JSON_user u') /\
       User.id u' = User.id u0 /\ User.email u' = User.email u0 /\
       User.name u' = User.name u0 /\ User.isRegistered u' = Some true) /\
  (forall now', now <> now' ->
     User.id (MockAuth.mockUser now) <> User.id (MockAuth.mockUser now')).
Proof.
  unfold MockAuth.login, MockAuth.checkRegistrationStatus.
  cbn [Auth.sessionStorage]. split; [| split].
  - intros ->. cbn. split; [reflexivity |]. split; [apply lookup_insert_eq |].
    reflexivity.
  - intros u0 -> ->. rewrite String.eqb_refl. eexists.
    split; [reflexivity |]. cbn. split; [apply lookup_insert_eq |].
    repeat split.
  - intros now' Hne H. apply Hne. cbn in H.
    repeat (injection H as H). now apply pretty_Z_inj.
Qed.

Lemma mock_login_checks_the_previous_user_witness :
  User.isRegistered <$> Auth.user (MockAuth.login 1700000000000 flagged_visitor)
  = Some (Some false) /\
  User.id <$> Auth.user (MockAuth.login 1700000000001
                            (MockAuth.login 1700000000000 flagged_visitor))
  = Some "google_1700000000000".
Proof.
  split.
  - now rewrite (proj1 (proj1 (mock_login_checks_the_previous_user
                                 1700000000000 flagged_visitor) eq_refl)).
  - destruct (proj1 (proj2 (mock_login_checks_the_previous_user
                              1700000000001
                              (MockAuth.login 1700000000000 flagged_visitor)))
                    (MockAuth.mockUser 1700000000000) eq_refl eq_refl)
      as (u' & -> & _ & Hid & _).
    cbn [fmap option_fmap option_map]. rewrite Hid. vm_compute. reflexivity.
Defined.

Lemma mock_handle_stored (e : MockAuth.Event) (w : Auth.World) :
  Auth.localStorage w !! "user" = Auth.JSON_user <$> Auth.user w ->
  Auth.localStorage (MockAuth.handle e w) !! "user"
  = Auth.JSON_user <$> Auth.user (MockAuth.handle e w).
Proof.
  intros Hw. destruct e as [now | |]; cbn [MockAuth.handle].
  - unfold MockAuth.login, MockAuth.checkRegistrationStatus.
    cbn [Auth.sessionStorage].
    destruct (Auth.user w) as [u0|];
      [destruct (match Auth.sessionStorage w !! "isRegistered" with
                 | Some (Auth.Text s) => String.eqb s "true"
                 | _ => false
                 end) |];
      cbn; apply lookup_insert_eq.
  - cbn. apply lookup_delete_eq.
  - unfold MockAuth.setUserRegistered, Auth.setUserRegistered.
    destruct (Auth.user w) as [u0|] eqn:E.
    + cbn. apply lookup_insert_eq.
    + now rewrite E in *.
Qed.

(** X30. The mock provider keeps [localStorage] in step with its user, so a
    page reload brings back exactly the user there was: after mounting on
    the stored state and any number of logins, logouts and registrations,
    reloading and mounting again yields the same user (or none) and leaves
    both storages as they were. *)
Theorem mock_user_survives_reload (es : list MockAuth.Event)
    (w0 w1 : Auth.World) :
  Auth.user w0 = None ->
  MockAuth.mount w0 = Some w1 ->
  let w := MockAuth.run es w1 in
  Auth.localStorage w !! "user" = Auth.JSON_user <$> Auth.user w /\
  exists w', MockAuth.mount (MockAuth.reload w) = Some w' /\
             Auth.user w' = Auth.user w /\ Auth.isLoading w' = false /\
             Auth.localStorage w' = Auth.localStorage w /\
             Auth.sessionStorage w' = Auth.sessionStorage w.
Proof.
  intros H0 Hmount. cbv zeta.
  assert (H1 : Auth.localStorage w1 !! "user" = Auth.JSON_user <$> Auth.user w1).
  { unfold MockAuth.mount in Hmount.
    destruct (Auth.localStorage w0 !! "user") as [[u|t]|] eqn:E;
      try discriminate Hmount; injection Hmount as <-; cbn; rewrite ?H0;
      exact E. }
  assert (H : forall w, Auth.localStorage w !! "user" = Auth.JSON_user <$> Auth.user w ->
              Auth.localStorage (MockAuth.run es w) !! "user"
              = Auth.JSON_user <$> Auth.user (MockAuth.run es w)).
  { clear. induction es as [|e es IH]; intros w Hw; [exact Hw |].
    apply IH. now apply mock_handle_stored. }
  specialize (H w1 H1). split; [exact H |].
  unfold MockAuth.mount, MockAuth.reload. cbn [Auth.localStorage].
  rewrite H. destruct (Auth.user (MockAuth.run es w1)) as [u|];
    cbn; eexists; repeat split.
Qed.

Lemma mock_user_survives_reload_witness :
  let w := MockAuth.run [MockAuth.EvLogin 1700000000000;
                         MockAuth.EvSetUserRegistered]
                        {| Auth.user := None; Auth.isLoading := false;
                           Auth.localStorage := ∅; Auth.sessionStorage := ∅ |} in
  exists w', MockAuth.mount (MockAuth.reload w) = Some w' /\
             Auth.user w' = Auth.user w /\
             User.isRegistered <$> Auth.user w' = Some (Some true).
Proof.
  cbv zeta.
  destruct (mock_user_survives_reload
              [MockAuth.EvLogin 1700000000000; MockAuth.EvSetUserRegistered]
              Auth.initialWorld
              {| Auth.user := None; Auth.isLoading := false;
                 Auth.localStorage := ∅; Auth.sessionStorage := ∅ |}
              eq_refl eq_refl)
    as (_ & w' & Hm & Hu & _).
  exists w'. split; [exact Hm |]. split; [exact Hu |].
  rewrite Hu. reflexivity.
Defined.
